(** * sysinfo: the probe-and-report engine of [bin/sysinfo.py]

    A shallow embedding of the Python class [SystemInfo] and the properties
    its specification states about it.

    Conventions of the embedding.
    - Python [str] is [string], one [ascii] per character, so that
      [String.length] is Python's [len].  The text of pseudo-files and of
      external tools is ASCII; the degree sign of temperature readings is
      the one character [DEGREE].  Characters outside ASCII are carried
      along unchanged and belong to no character class (Python's
      [isdigit], [isspace] and case mapping extend beyond ASCII).
    - Python [int] is [Z].
    - A Python [dict] is an association list in insertion order ([Dict]).
    - [try]/[except] is the error monad [result]; an exception that no
      handler catches is a [Raise].
    - Everything outside the interpreter (child processes, files, the
      directory listings behind [glob]) is read from a [World]. *)

From Stdlib Require Import String Ascii List ZArith QArith Qround Qabs Qpower
  DecimalString DecimalZ Bool Lia Lqa.
Import ListNotations.

Local Open Scope string_scope.
Local Open Scope Z_scope.

(* ================================================================= *)
(** * Python text primitives *)

Module Py.

(** [str.isspace] on ASCII: TAB..CR, FS..US and SPACE. *)
Definition is_space (c : ascii) : bool :=
  let n := nat_of_ascii c in
  ((9 <=? n)%nat && (n <=? 13)%nat) || ((28 <=? n)%nat && (n <=? 32)%nat).

(** [str.isdigit] on ASCII. *)
Definition is_digit (c : ascii) : bool :=
  let n := nat_of_ascii c in (48 <=? n)%nat && (n <=? 57)%nat.

Fixpoint lstrip (s : string) : string :=
  match s with
  | EmptyString => EmptyString
  | String c s' => if is_space c then lstrip s' else s
  end.

Fixpoint rstrip (s : string) : string :=
  match s with
  | EmptyString => EmptyString
  | String c s' =>
      match rstrip s' with
      | EmptyString => if is_space c then EmptyString else String c EmptyString
      | r => String c r
      end
  end.

(** [s.strip()] *)
Definition strip (s : string) : string := lstrip (rstrip s).

(** Truth value of a [str]: the empty string is falsy. *)
Definition truthy (s : string) : bool :=
  match s with EmptyString => false | _ => true end.

(** [s.isdigit()]: non-empty and every character is a digit. *)
Fixpoint all_digits (s : string) : bool :=
  match s with
  | EmptyString => true
  | String c s' => is_digit c && all_digits s'
  end.

Definition isdigit (s : string) : bool := truthy s && all_digits s.

(** The newline character. *)
Definition LF : ascii := "010"%char.

(** [c in s] for a single character [c]. *)
Fixpoint contains_char (c : ascii) (s : string) : bool :=
  match s with
  | EmptyString => false
  | String c' s' => Ascii.eqb c c' || contains_char c s'
  end.

(** [s.split(sep, 1)] for a single-character separator that occurs in
    [s]: the text before the first separator and the text after it.
    Without a separator the whole of [s] is the first part. *)
Fixpoint split_once (sep : ascii) (s : string) : string * string :=
  match s with
  | EmptyString => (EmptyString, EmptyString)
  | String c s' =>
      if Ascii.eqb c sep then (EmptyString, s')
      else let (a, b) := split_once sep s' in (String c a, b)
  end.

(** [s.split(sep)] for a single-character separator. *)
Fixpoint split_char (sep : ascii) (s : string) : list string :=
  match s with
  | EmptyString => [EmptyString]
  | String c s' =>
      if Ascii.eqb c sep then EmptyString :: split_char sep s'
      else
        match split_char sep s' with
        | [] => [String c EmptyString]
        | first :: rest => String c first :: rest
        end
  end.

(** [str(n)] for an [int]. *)
Definition str_of_Z (n : Z) : string := NilZero.string_of_int (Z.to_int n).

(** [c * n] *)
Fixpoint repeat_char (c : ascii) (n : nat) : string :=
  match n with
  | O => EmptyString
  | S n' => String c (repeat_char c n')
  end.

(** [f"{s:<{width}}"]: pad with spaces on the right up to [width]. *)
Definition ljust (s : string) (width : nat) : string :=
  s ++ repeat_char " " (width - String.length s).

(** The first [n] characters. *)
Fixpoint take (n : nat) (s : string) : string :=
  match n, s with
  | S n', String c s' => String c (take n' s')
  | _, _ => EmptyString
  end.

(** [s[:k]]: a negative [k] counts from the end. *)
Definition slice_to (s : string) (k : Z) : string :=
  if k <? 0 then take (Z.to_nat (Z.of_nat (String.length s) + k)) s
  else take (Z.to_nat k) s.

Definition is_upper (c : ascii) : bool :=
  let n := nat_of_ascii c in (65 <=? n)%nat && (n <=? 90)%nat.

Definition is_lower (c : ascii) : bool :=
  let n := nat_of_ascii c in (97 <=? n)%nat && (n <=? 122)%nat.

Definition to_lower (c : ascii) : ascii :=
  if is_upper c then ascii_of_nat (nat_of_ascii c + 32) else c.

Definition to_upper (c : ascii) : ascii :=
  if is_lower c then ascii_of_nat (nat_of_ascii c - 32) else c.

(** [s.lower()] *)
Fixpoint lower (s : string) : string :=
  match s with
  | EmptyString => EmptyString
  | String c s' => String (to_lower c) (lower s')
  end.

(** [s.replace(a, b)] for single characters. *)
Fixpoint replace_char (a b : ascii) (s : string) : string :=
  match s with
  | EmptyString => EmptyString
  | String c s' =>
      String (if Ascii.eqb c a then b else c) (replace_char a b s')
  end.

(** [s.title()]: a letter that follows a letter is lowered, any other
    letter is raised. *)
Fixpoint title_from (after_letter : bool) (s : string) : string :=
  match s with
  | EmptyString => EmptyString
  | String c s' =>
      let letter := is_upper c || is_lower c in
      String (if letter then if after_letter then to_lower c else to_upper c
              else c)
             (title_from letter s')
  end.

Definition title (s : string) : string := title_from false s.

(** [s.startswith(p)] *)
Definition startswith (p s : string) : bool := String.prefix p s.

(** [p in s] for a non-empty [p]. *)
Fixpoint contains (p s : string) : bool :=
  String.prefix p s ||
  match s with
  | EmptyString => false
  | String _ s' => contains p s'
  end.

(** [s.rstrip(chars)] for a single character. *)
Fixpoint rstrip_char (c : ascii) (s : string) : string :=
  match s with
  | EmptyString => EmptyString
  | String c' s' =>
      match rstrip_char c s' with
      | EmptyString =>
          if Ascii.eqb c' c then EmptyString else String c' EmptyString
      | r => String c' r
      end
  end.

(** [s.split(sep, maxsplit)] for a single-character separator. *)
Fixpoint split_max (sep : ascii) (maxsplit : nat) (s : string)
  : list string :=
  match maxsplit with
  | O => [s]
  | S n =>
      match s with
      | EmptyString => [EmptyString]
      | String c s' =>
          if Ascii.eqb c sep then EmptyString :: split_max sep n s'
          else
            match split_max sep maxsplit s' with
            | [] => [String c EmptyString]
            | first :: rest => String c first :: rest
            end
      end
  end.

(** [sep.join(parts)] *)
Definition join (sep : string) (parts : list string) : string :=
  String.concat sep parts.

(** The degree sign. *)
Definition DEGREE : ascii := "176"%char.

(** The longest prefix of digits, and what follows it. *)
Fixpoint span_digits (s : string) : string * string :=
  match s with
  | EmptyString => (EmptyString, EmptyString)
  | String c s' =>
      if is_digit c then let (d, r) := span_digits s' in (String c d, r)
      else (EmptyString, s)
  end.

(** [re.search(r'(\d+)', s)]: group 1 of the leftmost match. *)
Fixpoint search_digits (s : string) : option string :=
  match s with
  | EmptyString => None
  | String c s' =>
      if is_digit c then Some (fst (span_digits s)) else search_digits s'
  end.

End Py.

(* ================================================================= *)
(** * Python dictionaries *)

(** A [dict] keyed by [str]: the items in insertion order. *)
Module Dict.

Definition t (V : Type) : Type := list (string * V).

(** [d.get(k)] *)
Fixpoint get {V} (k : string) (d : t V) : option V :=
  match d with
  | [] => None
  | (k', v) :: d' => if String.eqb k k' then Some v else get k d'
  end.

(** [k in d] *)
Definition contains {V} (k : string) (d : t V) : bool :=
  match get k d with Some _ => true | None => false end.

(** [d[k] = v]: a key already present keeps its place. *)
Fixpoint set_item {V} (k : string) (v : V) (d : t V) : t V :=
  match d with
  | [] => [(k, v)]
  | (k', v') :: d' =>
      if String.eqb k k' then (k, v) :: d' else (k', v') :: set_item k v d'
  end.

(** [d.update(d2)] *)
Definition update {V} (d d2 : t V) : t V :=
  fold_left (fun acc kv => set_item (fst kv) (snd kv) acc) d2 d.

(** [list(d.keys())] *)
Definition keys {V} (d : t V) : list string := map fst d.

End Dict.

(* ================================================================= *)
(** * Exceptions and results *)

(** The exception classes that occur in the modelled code. *)
Inductive exn : Type :=
| TimeoutExpired                      (* subprocess.TimeoutExpired *)
| FileNotFoundError (filename : string)
| CalledProcessError (returncode : Z)
| OSError (msg : string)              (* IOError, PermissionError, ... *)
| ValueError (msg : string)
| TypeError (msg : string)
| OverflowError (msg : string)
| ZeroDivisionError (msg : string)
| IndexError (msg : string)
| KeyboardInterrupt
| SystemExit (code : Z).

(** [isinstance(e, Exception)]: [KeyboardInterrupt] and [SystemExit] derive
    from [BaseException] only. *)
Definition is_Exception (e : exn) : bool :=
  match e with
  | KeyboardInterrupt | SystemExit _ => false
  | _ => true
  end.

(** [str(e)].  The text of [FileNotFoundError] is the one [Popen] builds from
    errno 2 and the name of the program (a name that needs no escaping). *)
Definition exn_str (e : exn) : string :=
  match e with
  | TimeoutExpired => "Command timed out after 30 seconds"
  | FileNotFoundError f => "[Errno 2] No such file or directory: '" ++ f ++ "'"
  | CalledProcessError rc => "Command returned non-zero exit status"
  | OSError m | ValueError m | TypeError m | OverflowError m
  | ZeroDivisionError m | IndexError m => m
  | KeyboardInterrupt => ""
  | SystemExit _ => ""
  end.

Inductive result (A : Type) : Type :=
| Ok (a : A)
| Raise (e : exn).
Arguments Ok {A} a.
Arguments Raise {A} e.

Definition bind {A B : Type} (r : result A) (k : A -> result B) : result B :=
  match r with
  | Ok a => k a
  | Raise e => Raise e
  end.

Declare Scope result_scope.
Delimit Scope result_scope with result.
Notation "x <- c ;; k" := (bind c (fun x => k))
  (at level 61, c at next level, right associativity) : result_scope.

(* ================================================================= *)
(** * The world outside the interpreter *)

(** What [subprocess.run(args, capture_output=True, text=True, timeout=30)]
    does: it returns a [CompletedProcess] or raises. *)
Inductive run_outcome : Type :=
| Completed (stdout stderr : string) (returncode : Z)
| Raised (e : exn).

Record World : Type := {
  (** outcome of [subprocess.run] on an argument vector *)
  subprocess_run : list string -> run_outcome;
  (** [open(path).read()], [None] when it raises [IOError]/[OSError] *)
  open_read : string -> option string;
  (** [os.path.exists] / [Path.exists] *)
  path_exists : string -> bool;
  (** names in a directory, in the order the directory is scanned *)
  scandir : string -> list string;
  (** [datetime.now().isoformat()] *)
  now_isoformat : string;
  (** [datetime.now().strftime('%Y-%m-%d %H:%M:%S %Z')] *)
  now_banner : string
}.

(* ================================================================= *)
(** * Command Executor *)

(** The first argument of [run_command]: a command line or an argument
    vector. *)
Inductive command : Type :=
| CmdLine (s : string)
| CmdArgv (argv : list string).

(** The argument vector [Popen] executes: with [shell=True] the command
    line is handed to [/bin/sh -c]. *)
Definition popen_args (cmd : command) (shell : bool) : list string :=
  match cmd with
  | CmdLine s => if shell then ["/bin/sh"; "-c"; s] else [s]
  | CmdArgv argv => argv
  end.

Section Executor.
Variable w : World.

(** [SystemInfo.safe_read_file] *)
Definition safe_read_file (filepath : string) : option string :=
  match open_read w filepath with
  | Some content => Some (Py.strip content)
  | None => None
  end.

(** [SystemInfo.run_command] *)
Definition run_command (cmd : command) (shell : bool)
  : result (string * string * Z) :=
  match subprocess_run w (popen_args cmd shell) with
  | Completed out err rc => Ok (Py.strip out, Py.strip err, rc)
  | Raised TimeoutExpired => Ok ("", "Command timed out", 1)
  | Raised e =>
      if is_Exception e then Ok ("", exn_str e, 1) else Raise e
  end.

(** [SystemInfo.command_exists]: [which] is run with [check=True]; only
    [CalledProcessError] and [FileNotFoundError] are handled. *)
Definition command_exists (name : string) : result bool :=
  match subprocess_run w ["which"; name] with
  | Completed _ _ rc => Ok (rc =? 0)
  | Raised (CalledProcessError _) => Ok false
  | Raised (FileNotFoundError _) => Ok false
  | Raised e => Raise e
  end.


End Executor.

(* ================================================================= *)
(** * Python numbers *)

(** ** Binary64 floats

    A finite [float] is held as the rational it is exactly equal to.  The
    sign of zero is not kept ([-0.0 == 0.0] in Python). *)

Module PyFloat.

Definition pow2 (k : Z) : Q := (2 ^ k)%Q.

(** Round to the nearest integer, ties to even. *)
Definition rne (q : Q) : Z :=
  let f := Qfloor q in
  match (q - inject_Z f ?= 1 # 2)%Q with
  | Lt => f
  | Gt => f + 1
  | Eq => if Z.even f then f else f + 1
  end.

(** For [0 < q]: the exponent [e] with [2^e <= q < 2^(e+1)]. *)
Definition ilog2 (q : Q) : Z :=
  let e0 := Z.log2 (Qnum q) - Z.log2 (Zpos (Qden q)) in
  if Qle_bool (pow2 e0) q then e0 else e0 - 1.

(** Round to the nearest multiple of [2^s], ties to even. *)
Definition round_at (s : Z) (q : Q) : Q :=
  (inject_Z (rne (q / pow2 s)) * pow2 s)%Q.

(** The weight of the last of the 53 significand bits of a binary64 of
    the magnitude of [q]; never below that of the subnormals. *)
Definition scale_of (q : Q) : Z := Z.max (ilog2 (Qabs q) - 52) (-1074).

(** The binary64 nearest to [q], exponent range unbounded above. *)
Definition rn53 (q : Q) : Q :=
  if Qeq_bool q 0 then 0%Q else Qred (round_at (scale_of q) q).

(** A rounded value of magnitude [2^1024] or more does not fit. *)
Definition overflows (r : Q) : bool := Qle_bool (pow2 1024) (Qabs r).

Inductive t : Type :=
| Fin (q : Q)
| Inf (negative : bool)
| NaN.

(** The float a decimal literal such as [15.26] denotes. *)
Definition lit (d : Q) : t := Fin (rn53 d).

(** [a / b] on two [int]s: the quotient correctly rounded; a zero divisor
    and a quotient out of range both raise. *)
Definition truediv (a b : Z) : result t :=
  if b =? 0 then Raise (ZeroDivisionError "division by zero")
  else
    let r := rn53 (inject_Z a / inject_Z b) in
    if overflows r
    then Raise (OverflowError "integer division result too large for a float")
    else Ok (Fin r).

(** [x * y] on two floats. *)
Definition mul (x y : t) : t :=
  match x, y with
  | NaN, _ | _, NaN => NaN
  | Fin a, Fin b =>
      let r := rn53 (a * b) in
      if overflows r then Inf (Qle_bool r 0) else Fin r
  | Inf s, Fin b | Fin b, Inf s =>
      if Qeq_bool b 0 then NaN else Inf (xorb s (Qle_bool b 0))
  | Inf s1, Inf s2 => Inf (xorb s1 s2)
  end.

Definition ten_pow (ndigits : nat) : positive :=
  Nat.iter ndigits (Pos.mul 10) 1%positive.

(** [round(x, ndigits)] for [ndigits >= 0]: the decimal with [ndigits]
    places nearest to [x] (ties to even), converted back to a float.
    Infinities and NaN round to themselves.  For [ndigits >= 0] the
    result is never out of range. *)
Definition round (x : t) (ndigits : nat) : t :=
  match x with
  | Fin q =>
      Fin (rn53 (rne (q * inject_Z (Zpos (ten_pow ndigits))) # ten_pow ndigits))
  | _ => x
  end.

End PyFloat.

(** ** [int(...)] *)

(** The values the unit conversions are given. *)
Inductive pyval : Type :=
| PyInt (n : Z)
| PyStr (s : string)
| PyNone.

Module PyInt.

Definition digit_val (c : ascii) : Z := Z.of_nat (nat_of_ascii c) - 48.

(** Digits, single underscores allowed between two digits. *)
Fixpoint digits (s : string) (acc : Z) (after_digit : bool) : option Z :=
  match s with
  | EmptyString => if after_digit then Some acc else None
  | String c s' =>
      if Py.is_digit c then digits s' (10 * acc + digit_val c) true
      else if Ascii.eqb c "_" && after_digit then digits s' acc false
      else None
  end.

(** The integer a string denotes in base 10: surrounding whitespace, an
    optional sign, then digits. *)
Definition of_str (s : string) : option Z :=
  match Py.strip s with
  | String "-" s' => option_map Z.opp (digits s' 0 false)
  | String "+" s' => digits s' 0 false
  | s' => digits s' 0 false
  end.

(** [int(v)] *)
Definition int (v : pyval) : result Z :=
  match v with
  | PyInt n => Ok n
  | PyStr s =>
      match of_str s with
      | Some n => Ok n
      | None => Raise (ValueError "invalid literal for int() with base 10")
      end
  | PyNone =>
      Raise (TypeError "int() argument must be a string, a bytes-like object or a real number, not 'NoneType'")
  end.

End PyInt.

(* ================================================================= *)
(** * Unit conversions *)

(** [try: body  except (ValueError, TypeError): return 0.0] *)
Definition except_value_type_error (body : result PyFloat.t) : result PyFloat.t :=
  match body with
  | Raise (ValueError _) | Raise (TypeError _) => Ok (PyFloat.Fin 0)
  | r => r
  end.

(** [return round(int(val) / divisor, 2)] *)
Definition round_quotient (val : pyval) (divisor : Z) : result PyFloat.t :=
  match PyInt.int val with
  | Raise e => Raise e
  | Ok n =>
      match PyFloat.truediv n divisor with
      | Raise e => Raise e
      | Ok x => Ok (PyFloat.round x 2)
      end
  end.

(** [SystemInfo.bytes_to_gb] *)
Definition bytes_to_gb (bytes_val : pyval) : result PyFloat.t :=
  except_value_type_error (round_quotient bytes_val (1024 ^ 3)).

(** [SystemInfo.kb_to_gb] *)
Definition kb_to_gb (kb_val : pyval) : result PyFloat.t :=
  except_value_type_error (round_quotient kb_val (1024 ^ 2)).

(* ================================================================= *)
(** * Report values *)

(** What a Section holds under a field name. *)
#[warnings="-register-all"]
Inductive value : Type :=
| VStr (s : string)
| VInt (n : Z)
| VFloat (x : PyFloat.t)
| VBool (b : bool)
| VNone
| VDict (items : list (string * value)).

(* ================================================================= *)
(** * Memory probe *)

Section MemoryProbe.
Variable w : World.
Local Open Scope result_scope.

(** One line of [/proc/meminfo]: [key: <number> kB]. *)
Definition meminfo_line (mem_data : Dict.t Z) (line : string)
  : result (Dict.t Z) :=
  if Py.contains_char ":" line then
    let (key, val) := Py.split_once ":" line in
    match Py.search_digits val with
    | Some digits =>
        n <- PyInt.int (PyStr digits) ;;
        Ok (Dict.set_item (Py.strip key) n mem_data)
    | None => Ok mem_data
    end
  else Ok mem_data.

Fixpoint meminfo_lines (mem_data : Dict.t Z) (lines : list string)
  : result (Dict.t Z) :=
  match lines with
  | [] => Ok mem_data
  | line :: rest =>
      mem_data' <- meminfo_line mem_data line ;;
      meminfo_lines mem_data' rest
  end.

(** [SystemInfo.get_linux_memory_info].  Only [IOError] is handled, and
    only [open] and [read] can raise it. *)
Definition get_linux_memory_info : result (Dict.t value) :=
  match open_read w "/proc/meminfo" with
  | None => Ok []
  | Some meminfo =>
      mem_data <- meminfo_lines [] (Py.split_char Py.LF meminfo) ;;
      let info := [] in
      info <-
        match Dict.get "MemTotal" mem_data with
        | Some total =>
            gb <- kb_to_gb (PyInt total) ;;
            Ok (Dict.set_item "total_ram_gb" (VFloat gb) info)
        | None => Ok info
        end ;;
      info <-
        match Dict.get "MemAvailable" mem_data with
        | Some available =>
            gb <- kb_to_gb (PyInt available) ;;
            Ok (Dict.set_item "available_ram_gb" (VFloat gb) info)
        | None => Ok info
        end ;;
      info <-
        match Dict.get "MemTotal" mem_data, Dict.get "MemAvailable" mem_data with
        | Some total, Some available =>
            let used_kb := total - available in
            gb <- kb_to_gb (PyInt used_kb) ;;
            let info := Dict.set_item "used_ram_gb" (VFloat gb) info in
            ratio <- PyFloat.truediv used_kb total ;;
            let usage_percent := PyFloat.mul ratio (PyFloat.Fin 100) in
            Ok (Dict.set_item "usage_percent"
                  (VFloat (PyFloat.round usage_percent 1)) info)
        | _, _ => Ok info
        end ;;
      info <-
        match Dict.get "SwapTotal" mem_data with
        | Some swap_total =>
            gb <- kb_to_gb (PyInt swap_total) ;;
            Ok (Dict.set_item "total_swap_gb" (VFloat gb) info)
        | None => Ok info
        end ;;
      match Dict.get "SwapFree" mem_data, Dict.get "SwapTotal" mem_data with
      | Some swap_free, Some swap_total =>
          let swap_used_kb := swap_total - swap_free in
          gb <- kb_to_gb (PyInt swap_used_kb) ;;
          Ok (Dict.set_item "used_swap_gb" (VFloat gb) info)
      | _, _ => Ok info
      end
  end.

End MemoryProbe.

(* ================================================================= *)
(** * The probe engine: flags, state and output *)

(** The constructor arguments of [SystemInfo]. *)
Record SystemInfo : Type := {
  verbose : bool;
  brief : bool;
  output_json : bool
}.

(** One [print] call: a line of text, or the document [json.dumps]
    serialises. *)
Inductive printed : Type :=
| Line (text : string)
| JsonDocument (doc : value).

(** A method of [SystemInfo]: from [self.data] it yields a value or an
    exception, the new [self.data], and what it printed. *)
Definition M (A : Type) : Type :=
  Dict.t value -> result A * Dict.t value * list printed.

Definition result_of {A} (x : result A * Dict.t value * list printed)
  : result A := fst (fst x).
Definition data_of {A} (x : result A * Dict.t value * list printed)
  : Dict.t value := snd (fst x).
Definition output_of {A} (x : result A * Dict.t value * list printed)
  : list printed := snd x.

Definition ret {A} (a : A) : M A := fun d => (Ok a, d, []).

Definition mbind {A B} (c : M A) (k : A -> M B) : M B :=
  fun d =>
    match c d with
    | (Ok a, d', out) =>
        let '(r, d'', out') := k a d' in (r, d'', (out ++ out')%list)
    | (Raise e, d', out) => (Raise e, d', out)
    end.

Definition lift {A} (r : result A) : M A := fun d => (r, d, []).

Declare Scope method_scope.
Delimit Scope method_scope with method.
Notation "x <- c ;; k" := (mbind c (fun x => k))
  (at level 61, c at next level, right associativity) : method_scope.
Notation "c ;; k" := (mbind c (fun _ => k))
  (at level 61, right associativity) : method_scope.

(** [print(text)] *)
Definition print (text : string) : M unit :=
  fun d => (Ok tt, d, [Line text]).

(** [print(json.dumps(doc, indent=2))] *)
Definition print_json (doc : value) : M unit :=
  fun d => (Ok tt, d, [JsonDocument doc]).

(** [self.data[name] = info] *)
Definition store (name : string) (info : value) : M unit :=
  fun d => (Ok tt, Dict.set_item name info d, []).

(** [for x in xs: body(x)] *)
Fixpoint for_each {A} (xs : list A) (body : A -> M unit) : M unit :=
  match xs with
  | [] => ret tt
  | x :: xs' => mbind (body x) (fun _ => for_each xs' body)
  end.

(** [class Colors] *)
Module Colors.
Definition ESC : string := String "027"%char EmptyString.
Definition RED : string := ESC ++ "[0;31m".
Definition GREEN : string := ESC ++ "[0;32m".
Definition YELLOW : string := ESC ++ "[1;33m".
Definition BLUE : string := ESC ++ "[0;34m".
Definition CYAN : string := ESC ++ "[0;36m".
Definition WHITE : string := ESC ++ "[1;37m".
Definition BOLD : string := ESC ++ "[1m".
Definition RESET : string := ESC ++ "[0m".
End Colors.

(* ================================================================= *)
(** * Renderer: console output *)

Definition NL : string := String Py.LF EmptyString.

Section Renderer.
Variable self : SystemInfo.
Local Open Scope method_scope.

(** [SystemInfo.print_section] *)
Definition print_section (title : string) : M unit :=
  if negb (output_json self)
  then print (NL ++ Colors.BLUE ++ "=== " ++ title ++ " ===" ++ Colors.RESET)
  else ret tt.

(** [SystemInfo.print_info] with the default [indent=0]; [value] is the
    text [str(value)]. *)
Definition print_info (label value : string) : M unit :=
  if negb (output_json self)
  then print (Colors.GREEN ++ label ++ ":" ++ Colors.RESET ++ " " ++ value)
  else ret tt.

(** The width of column [i]: the header and every cell [row[i]] that
    exists count, two is added and 30 is the cap. *)
Definition column_width (rows : list (list string)) (i : nat)
    (header : string) : nat :=
  let max_width :=
    fold_left
      (fun max_width row =>
         match nth_error row i with
         | Some cell => Nat.max max_width (String.length cell)
         | None => max_width
         end)
      rows (String.length header) in
  Nat.min (max_width + 2) 30.

Definition enumerate {A} (xs : list A) : list (nat * A) :=
  combine (seq 0 (List.length xs)) xs.

Definition col_widths (headers : list string) (rows : list (list string))
  : list nat :=
  map (fun ih => column_width rows (fst ih) (snd ih)) (enumerate headers).

(** One cell of a row: cut to [width - 5] characters and marked with
    three dots when longer than [width - 2], then padded to [width]. *)
Definition render_cell (cell : string) (width : nat) : string :=
  let cell_str :=
    if (Z.of_nat width - 2 <? Z.of_nat (String.length cell))%Z
    then Py.slice_to cell (Z.of_nat width - 5) ++ "..."
    else cell in
  Py.ljust cell_str width.

Definition render_row (row : list string) (widths : list nat) : string :=
  fold_left (fun row_line cw => row_line ++ render_cell (fst cw) (snd cw))
            (combine row widths) "  ".

Definition header_line (headers : list string) (widths : list nat) : string :=
  fold_left (fun line hw => line ++ Py.ljust (fst hw) (snd hw))
            (combine headers widths) "  ".

Definition separator_line (headers : list string) (widths : list nat)
  : string :=
  fold_left (fun line hw => line ++ Py.repeat_char "-" (snd hw))
            (combine headers widths) "  ".

(** [SystemInfo.print_table]; cells are [str]. *)
Definition print_table (headers : list string) (rows : list (list string))
    (title : option string) : M unit :=
  if output_json self then ret tt
  else
    (match title with
     | Some t =>
         if Py.truthy t
         then print (NL ++ Colors.CYAN ++ t ++ ":" ++ Colors.RESET)
         else ret tt
     | None => ret tt
     end) ;;
    match rows with
    | [] => print "  No data available"
    | _ =>
        let widths := col_widths headers rows in
        print (Colors.WHITE ++ header_line headers widths ++ Colors.RESET) ;;
        print (Colors.BLUE ++ separator_line headers widths ++ Colors.RESET) ;;
        for_each rows (fun row => print (render_row row widths))
    end.

End Renderer.

(* ================================================================= *)
(** * File-name patterns *)

(** The patterns [Path.glob] is given: literal characters, a character
    set, and the star. *)
Inductive pat : Type :=
| PChar (c : ascii)
| PSet (cs : list ascii)
| PStar.

Fixpoint glob_match (p : list pat) : string -> bool :=
  match p with
  | [] => fun s => negb (Py.truthy s)
  | PChar c :: p' =>
      fun s =>
        match s with
        | String c' s' => Ascii.eqb c c' && glob_match p' s'
        | EmptyString => false
        end
  | PSet cs :: p' =>
      fun s =>
        match s with
        | String c' s' => existsb (Ascii.eqb c') cs && glob_match p' s'
        | EmptyString => false
        end
  | PStar :: p' =>
      fix star (s : string) : bool :=
        glob_match p' s ||
        match s with
        | String _ s' => star s'
        | EmptyString => false
        end
  end.

(** The literal characters of a pattern. *)
Fixpoint literal (s : string) : list pat :=
  match s with
  | EmptyString => []
  | String c s' => PChar c :: literal s'
  end.

(** [Path(dir).glob(pattern)]: the names of the matching entries. *)
Definition glob (w : World) (dir : string) (pattern : list pat) : list string :=
  filter (glob_match pattern) (scandir w dir).

(* ================================================================= *)
(** * Hardware and graphics-driver probes *)

Section HardwareProbe.
Variable w : World.
Variable self : SystemInfo.
Local Open Scope method_scope.

Definition dmi_files : list (string * string) :=
  [("manufacturer", "/sys/class/dmi/id/sys_vendor");
   ("product_name", "/sys/class/dmi/id/product_name");
   ("product_version", "/sys/class/dmi/id/product_version");
   ("serial_number", "/sys/class/dmi/id/product_serial");
   ("bios_vendor", "/sys/class/dmi/id/bios_vendor");
   ("bios_version", "/sys/class/dmi/id/bios_version");
   ("bios_date", "/sys/class/dmi/id/bios_date");
   ("board_name", "/sys/class/dmi/id/board_name");
   ("board_vendor", "/sys/class/dmi/id/board_vendor")].

Definition dmi_placeholders : list string :=
  ["To be filled by O.E.M."; "Not Specified"; ""].

(** [value and value not in [...]] *)
Definition dmi_usable (value : option string) : bool :=
  match value with
  | Some v => Py.truthy v && negb (existsb (String.eqb v) dmi_placeholders)
  | None => false
  end.

(** The field stored for one DMI file. *)
Definition dmi_field (value : option string) : string :=
  match value with
  | Some v => if dmi_usable value then v else "Unknown"
  | None => "Unknown"
  end.

(** [SystemInfo.get_dmi_info] *)
Definition get_dmi_info : Dict.t string :=
  fold_left
    (fun info kf =>
       Dict.set_item (fst kf) (dmi_field (safe_read_file w (snd kf))) info)
    dmi_files [].

Definition chassis_type_map : Dict.t string :=
  [("1", "Other"); ("2", "Unknown"); ("3", "Desktop");
   ("4", "Low Profile Desktop"); ("5", "Pizza Box"); ("6", "Mini Tower");
   ("7", "Tower"); ("8", "Portable"); ("9", "Laptop"); ("10", "Notebook");
   ("11", "Hand Held"); ("12", "Docking Station"); ("13", "All In One");
   ("14", "Sub Notebook"); ("15", "Space-saving"); ("16", "Lunch Box");
   ("17", "Main Server Chassis"); ("18", "Expansion Chassis");
   ("19", "Sub Chassis"); ("20", "Bus Expansion Chassis");
   ("21", "Peripheral Chassis"); ("22", "RAID Chassis");
   ("23", "Rack Mount Chassis"); ("24", "Sealed-case PC")].

(** [SystemInfo.get_chassis_info] *)
Definition get_chassis_info : Dict.t string :=
  let unknown := [("chassis_type", "Unknown")] in
  match safe_read_file w "/sys/class/dmi/id/chassis_type" with
  | Some chassis_code =>
      if Py.truthy chassis_code then
        match Dict.get chassis_code chassis_type_map with
        | Some name => [("chassis_type", name)]
        | None => unknown
        end
      else unknown
  | None => unknown
  end.

(** A Section of text fields as it is stored in [self.data]. *)
Definition text_section (info : Dict.t string) : value :=
  VDict (map (fun kv => (fst kv, VStr (snd kv))) info).

(** [key.replace('_', ' ').title()] *)
Definition label_of (key : string) : string :=
  Py.title (Py.replace_char "_" " " key).

(** [for key, value in info.items(): self.print_info(label, value)] *)
Definition print_fields (info : Dict.t string) : M unit :=
  for_each info (fun kv => print_info self (label_of (fst kv)) (snd kv)).

(** [SystemInfo.get_hardware_info] *)
Definition get_hardware_info : M (Dict.t string) :=
  print_section self "HARDWARE INFORMATION" ;;
  let info := [] in
  let dmi_info := get_dmi_info in
  let info := match dmi_info with [] => info | _ => Dict.update info dmi_info end in
  let info := Dict.update info get_chassis_info in
  store "hardware" (text_section info) ;;
  print_fields info ;;
  ret info.



End HardwareProbe.

(* ================================================================= *)
(** * Power probe *)

Section PowerProbe.
Variable w : World.
Variable self : SystemInfo.
Local Open Scope method_scope.

Definition power_supply_path : string := "/sys/class/power_supply".

(** [if value: info[key] = value] *)
Definition set_if_read (key : string) (value : option string)
    (info : Dict.t string) : Dict.t string :=
  match value with
  | Some v => if Py.truthy v then Dict.set_item key v info else info
  | None => info
  end.

(** The body of the loop over the batteries. *)
Definition battery_step (acc : Dict.t string * Z) (battery_name : string)
  : Dict.t string * Z :=
  let (info, battery_count) := acc in
  let battery_count := battery_count + 1 in
  let battery_path := power_supply_path ++ "/" ++ battery_name in
  let capacity := safe_read_file w (battery_path ++ "/capacity") in
  let status := safe_read_file w (battery_path ++ "/status") in
  let technology := safe_read_file w (battery_path ++ "/technology") in
  let manufacturer := safe_read_file w (battery_path ++ "/manufacturer") in
  let prefix :=
    if battery_count =? 1 then Py.lower battery_name ++ "_"
    else Py.lower battery_name ++ "_" ++ Py.str_of_Z battery_count ++ "_" in
  let info := set_if_read (prefix ++ "capacity_percent") capacity info in
  let info := set_if_read (prefix ++ "status") status info in
  let info := set_if_read (prefix ++ "technology") technology info in
  let info := set_if_read (prefix ++ "manufacturer") manufacturer info in
  (info, battery_count).

(** The batteries the glob [BAT*] finds. *)
Definition batteries : list string :=
  if path_exists w power_supply_path
  then glob w power_supply_path (literal "BAT" ++ [PStar])
  else [].

(** [SystemInfo.get_battery_info] *)
Definition get_battery_info : Dict.t string :=
  let (info, battery_count) := fold_left battery_step batteries ([], 0) in
  if battery_count =? 0
  then Dict.set_item "battery_status" "No battery detected (Desktop system)" info
  else info.

Definition adapter_step (info : Dict.t string) (adapter_name : string)
  : Dict.t string :=
  let online :=
    safe_read_file w (power_supply_path ++ "/" ++ adapter_name ++ "/online") in
  match online with
  | Some o =>
      if Py.truthy o then
        let status := if String.eqb o "1" then "Connected" else "Disconnected" in
        Dict.set_item (Py.lower adapter_name ++ "_status") status info
      else info
  | None => info
  end.

(** The adapters the glob [A[CD]*] finds. *)
Definition adapters : list string :=
  if path_exists w power_supply_path
  then glob w power_supply_path [PChar "A"; PSet ["C"; "D"]%char; PStar]
  else [].

(** [SystemInfo.get_ac_adapter_info] *)
Definition get_ac_adapter_info : Dict.t string :=
  fold_left adapter_step adapters [].

(** [SystemInfo.get_power_info] *)
Definition get_power_info : M (Dict.t string) :=
  print_section self "POWER INFORMATION" ;;
  let info := [] in
  let battery_info := get_battery_info in
  let info :=
    match battery_info with [] => info | _ => Dict.update info battery_info end in
  let ac_info := get_ac_adapter_info in
  let info :=
    match ac_info with [] => info | _ => Dict.update info ac_info end in
  store "power" (text_section info) ;;
  match info with
  | [] => print_info self "Power Information" "No power devices detected"
  | _ => print_fields self info
  end ;;
  ret info.

End PowerProbe.

(* ================================================================= *)
(** * Temperature probe *)

Section TemperatureProbe.
Variable w : World.
Variable self : SystemInfo.
Local Open Scope method_scope.

Definition degrees (unit : ascii) : string :=
  String Py.DEGREE (String unit EmptyString).

(** [\d+\.\d+°[CF]] at the start of [s]: the text matched.  Both runs of
    digits are followed by a character that is not a digit, so a shorter
    run never matches where the longest does not. *)
Definition match_reading_unsigned (s : string) : option string :=
  let (whole, r1) := Py.span_digits s in
  match r1 with
  | String "." r2 =>
      let (frac, r3) := Py.span_digits r2 in
      match r3 with
      | String d (String u _) =>
          if Py.truthy whole && Py.truthy frac && Ascii.eqb d Py.DEGREE
             && (Ascii.eqb u "C" || Ascii.eqb u "F")
          then Some (whole ++ "." ++ frac ++ degrees u)
          else None
      | _ => None
      end
  | _ => None
  end.

(** [[+-]?\d+\.\d+°[CF]] at the start of [s]. *)
Definition match_reading_at (s : string) : option string :=
  match s with
  | String c s' =>
      if Ascii.eqb c "+" || Ascii.eqb c "-"
      then option_map (String c) (match_reading_unsigned s')
      else match_reading_unsigned s
  | EmptyString => None
  end.

(** [re.search(r'([+-]?\d+\.\d+)°[CF]', s).group(0)] *)
Fixpoint search_reading (s : string) : option string :=
  match match_reading_at s with
  | Some m => Some m
  | None =>
      match s with
      | String _ s' => search_reading s'
      | EmptyString => None
      end
  end.

(** One line of the output of [sensors]; the accumulator is
    [(current_device, temp_rows, sensor_temps)]. *)
Definition sensors_step
    (acc : string * list (list string) * list string) (line : string)
  : string * list (list string) * list string :=
  let '(current_device, temp_rows, sensor_temps) := acc in
  if negb (Py.contains_char ":" line) && Py.truthy (Py.strip line)
     && negb (Py.startswith " " line)
  then (Py.strip line, temp_rows, sensor_temps)
  else if Py.contains (degrees "C") line || Py.contains (degrees "F") line
  then
    match search_reading line with
    | Some temp_value =>
        let temp_name :=
          if Py.contains_char ":" line
          then Py.strip (fst (Py.split_once ":" line))
          else "Temperature" in
        (current_device,
         (temp_rows ++ [[current_device; temp_name; temp_value]])%list,
         (sensor_temps ++ [(temp_name ++ ": " ++ temp_value)%string])%list)
    | None => acc
    end
  else acc.

(** The [sensors] part: the fields and the rows it contributes. *)
Definition sensors_readings : M (Dict.t value * list (list string)) :=
  found <- lift (command_exists w "sensors") ;;
  if found : bool then
    r <- lift (run_command w (CmdLine "sensors 2>/dev/null") true) ;;
    let '(stdout, _, returncode) := r in
    if (returncode =? 0) && Py.truthy stdout then
      let '(_, temp_rows, sensor_temps) :=
        fold_left sensors_step (Py.split_char Py.LF stdout)
                  ("Unknown", [], []) in
      match sensor_temps with
      | [] => ret ([], temp_rows)
      | _ => ret ([("sensors_available", VBool true)], temp_rows)
      end
    else ret ([], [])
  else ret ([], []).

Definition thermal_path : string := "/sys/class/thermal".

(** The body of the loop over the thermal zones; the accumulator is
    [(thermal_zones, temp_rows)]. *)
Definition thermal_zone_step
    (acc : Dict.t string * list (list string)) (zone_name : string)
  : result (Dict.t string * list (list string)) :=
  let (thermal_zones, temp_rows) := acc in
  let temp_file := thermal_path ++ "/" ++ zone_name ++ "/temp" in
  match safe_read_file w temp_file with
  | Some temp_raw =>
      if Py.truthy temp_raw && Py.isdigit temp_raw then
        (n <- PyInt.int (PyStr temp_raw) ;;
         let temp_celsius := n / 1000 in
         let reading := Py.str_of_Z temp_celsius ++ degrees "C" in
         Ok (Dict.set_item zone_name reading thermal_zones,
             (temp_rows ++ [["Thermal Zone"; zone_name; reading]])%list))%result
      else Ok acc
  | None => Ok acc
  end.

Fixpoint scan_thermal_zones
    (zones : list string) (acc : Dict.t string * list (list string))
  : result (Dict.t string * list (list string)) :=
  match zones with
  | [] => Ok acc
  | zone_name :: rest =>
      match thermal_zone_step acc zone_name with
      | Ok acc' => scan_thermal_zones rest acc'
      | Raise e => Raise e
      end
  end.

(** The zones the glob [thermal_zone*] finds. *)
Definition thermal_zone_names : list string :=
  if path_exists w thermal_path
  then glob w thermal_path (literal "thermal_zone" ++ [PStar])
  else [].

(** [SystemInfo.get_temperature_info] *)
Definition get_temperature_info : M (Dict.t value) :=
  print_section self "TEMPERATURE INFORMATION" ;;
  sensed <- sensors_readings ;;
  let (info, temp_rows) := sensed : Dict.t value * list (list string) in
  scanned <- lift (scan_thermal_zones thermal_zone_names ([], temp_rows)) ;;
  let (thermal_zones, temp_rows) :=
    scanned : Dict.t string * list (list string) in
  let info :=
    match thermal_zones with
    | [] => info
    | _ => Dict.set_item "thermal_zones_count"
             (VInt (Z.of_nat (List.length thermal_zones))) info
    end in
  info <-
    match temp_rows with
    | [] =>
        print_info self "Temperature Sensors" "No sensors available" ;;
        ret (Dict.set_item "temperature_sensors"
               (VStr "No sensors available") info)
    | _ =>
        print_table self ["Source"; "Sensor"; "Temperature"] temp_rows
                    (Some "Temperature Readings") ;;
        ret info
    end ;;
  store "temperature" (VDict info) ;;
  ret info.

End TemperatureProbe.

(* ================================================================= *)
(** * USB probe *)

Section UsbProbe.
Variable w : World.
Variable self : SystemInfo.
Local Open Scope method_scope.

(** One line of the output of [lsusb]; the accumulator is
    [(usb_devices, device_rows)]. *)
Definition lsusb_step (acc : list string * list (list string)) (line : string)
  : list string * list (list string) :=
  let (usb_devices, device_rows) := acc in
  if Py.truthy (Py.strip line)
     && negb (Py.contains "root hub" (Py.lower line))
  then
    match Py.split_max " " 6 line with
    | [_; bus; _; device; _; usb_id; device_desc] =>
        ((usb_devices ++ [device_desc])%list,
         (device_rows
            ++ [[bus; Py.rstrip_char ":" device; usb_id; device_desc]])%list)
    | _ => acc
    end
  else acc.

(** [SystemInfo.get_usb_info] *)
Definition get_usb_info : M (Dict.t value) :=
  print_section self "USB INFORMATION" ;;
  found <- lift (command_exists w "lsusb") ;;
  info <-
    (if found : bool then
       r <- lift (run_command w (CmdLine "lsusb") true) ;;
       let '(stdout, _, returncode) := r in
       if (returncode =? 0) && Py.truthy stdout then
         let (usb_devices, device_rows) :=
           fold_left lsusb_step (Py.split_char Py.LF stdout) ([], []) in
         match usb_devices with
         | [] =>
             print_info self "USB Devices" "None detected" ;;
             ret [("devices", VStr "None detected")]
         | _ =>
             match device_rows with
             | [] => ret tt
             | _ => print_table self ["Bus"; "Device"; "ID"; "Description"]
                                device_rows (Some "USB Devices")
             end ;;
             ret [("device_count", VInt (Z.of_nat (List.length usb_devices)))]
         end
       else ret []
     else ret []) ;;
  store "usb" (VDict info) ;;
  ret info.

End UsbProbe.

(* ================================================================= *)
(** * Renderer: JSON document and console footer *)

Section Output.
Variable w : World.
Variable self : SystemInfo.
Local Open Scope method_scope.

(** The [output_data] of [generate_json_output]. *)
Definition output_data (report : Dict.t value) : value :=
  VDict [("system_info", VDict report);
         ("generated_at", VStr (now_isoformat w));
         ("script_version", VStr "5.0");
         ("script_language", VStr "Python")].

(** [SystemInfo.generate_json_output] *)
Definition generate_json_output : M unit :=
  fun d => print_json (output_data d) d.

(** [SystemInfo.generate_console_footer] *)
Definition generate_console_footer : M unit :=
  print (NL ++ Colors.GREEN ++ "System information scan completed."
            ++ Colors.RESET) ;;
  print (Colors.CYAN ++ "Script: Python System Information v5.0"
            ++ Colors.RESET).

(** [SystemInfo.generate_output] *)
Definition generate_output : M unit :=
  if output_json self then generate_json_output
  else generate_console_footer.

End Output.

(* ================================================================= *)
(** * Run Controller *)

(** The probes that are not embedded statement by statement.  Each of
    them opens with [self.print_section(...)]; what follows is its body:
    it may print, store and raise like any other method. *)
Record ProbeBodies : Type := {
  system_body : M unit;
  cpu_body : M unit;
  memory_body : M unit;
  graphics_body : M unit;
  audio_body : M unit;
  network_body : M unit;
  storage_body : M unit
}.

(** [try: body  except KeyboardInterrupt: h1  except Exception as e: h2] *)
Definition try_except {A} (body : M A)
    (on_interrupt : M A) (on_exception : exn -> M A) : M A :=
  fun d =>
    match body d with
    | (Raise e, d', out) =>
        match e with
        | KeyboardInterrupt =>
            let '(r, d'', out') := on_interrupt d' in (r, d'', (out ++ out')%list)
        | _ =>
            if is_Exception e
            then let '(r, d'', out') := on_exception e d' in
                 (r, d'', (out ++ out')%list)
            else (Raise e, d', out)
        end
    | returned => returned
    end.

(** [sys.exit(code)] *)
Definition sys_exit {A} (code : Z) : M A := lift (Raise (SystemExit code)).

Section RunController.
Variable w : World.
Variable self : SystemInfo.
Variable bodies : ProbeBodies.
Local Open Scope method_scope.

Definition get_system_info : M unit :=
  print_section self "SYSTEM INFORMATION" ;; system_body bodies.
Definition get_cpu_info : M unit :=
  print_section self "CPU INFORMATION" ;; cpu_body bodies.
Definition get_memory_info : M unit :=
  print_section self "MEMORY INFORMATION" ;; memory_body bodies.
Definition get_graphics_info : M unit :=
  print_section self "GRAPHICS INFORMATION" ;; graphics_body bodies.
Definition get_audio_info : M unit :=
  print_section self "AUDIO INFORMATION" ;; audio_body bodies.
Definition get_network_info : M unit :=
  print_section self "NETWORK INFORMATION" ;; network_body bodies.
Definition get_storage_info : M unit :=
  print_section self "STORAGE INFORMATION" ;; storage_body bodies.

(** The header.  The box-drawing characters of its frame are the only
    text held as UTF-8 bytes, three per character. *)
Definition banner : M unit :=
  if negb (output_json self) then
    print (Colors.CYAN
             ++ "╔══════════════════════════════════════════════════════════════╗"
             ++ Colors.RESET) ;;
    print (Colors.CYAN ++ "║" ++ Colors.RESET ++ Colors.WHITE
             ++ "           Comprehensive System Information v5.0           "
             ++ Colors.RESET ++ Colors.CYAN ++ "║" ++ Colors.RESET) ;;
    print (Colors.CYAN
             ++ "╚══════════════════════════════════════════════════════════════╝"
             ++ Colors.RESET) ;;
    print (Colors.YELLOW ++ "Generated: " ++ now_banner w ++ Colors.RESET)
  else ret tt.

(** The eleven probes in their fixed order. *)
Definition gather : M unit :=
  get_system_info ;;
  get_hardware_info w self ;;
  get_cpu_info ;;
  get_memory_info ;;
  get_graphics_info ;;
  get_audio_info ;;
  get_network_info ;;
  get_storage_info ;;
  get_usb_info w self ;;
  get_power_info w self ;;
  get_temperature_info w self ;;
  ret tt.

Definition interrupted_notice : string :=
  NL ++ Colors.YELLOW ++ "Script interrupted by user." ++ Colors.RESET.

(** The body of the [try] statement. *)
Definition checks : M unit :=
  banner ;; gather ;; generate_output w self.

(** [SystemInfo.run_all_checks].  The traceback of verbose mode goes to
    the standard error stream, which is not part of the output. *)
Definition run_all_checks : M unit :=
  try_except
    checks
    (print interrupted_notice ;; sys_exit 1)
    (fun e =>
       print (NL ++ Colors.RED ++ "An error occurred: " ++ exn_str e
                ++ Colors.RESET) ;;
       sys_exit 1).

(** [main]: a fresh [SystemInfo] runs all checks; the exit status of the
    process and everything it printed. *)
Definition exit_status (r : result unit) : Z :=
  match r with
  | Ok _ => 0
  | Raise (SystemExit code) => code
  | Raise _ => 1
  end.

Definition main : Z * list printed :=
  let run := run_all_checks [] in
  (exit_status (result_of run), output_of run).

End RunController.

(* ================================================================= *)
(** * Further text primitives *)

Module Text.

(** [s.split()]: the maximal runs of characters that are not whitespace. *)
Fixpoint split_ws (s : string) : list string :=
  match s with
  | EmptyString => []
  | String c s' =>
      if Py.is_space c then split_ws s'
      else
        match s' with
        | EmptyString => [String c EmptyString]
        | String c' _ =>
            if Py.is_space c' then String c EmptyString :: split_ws s'
            else
              match split_ws s' with
              | first :: rest => String c first :: rest
              | [] => [String c EmptyString]
              end
        end
  end.

(** [s.count(p)] for a non-empty [p]: the occurrences are counted from
    the left and do not overlap; [skip] characters of the occurrence last
    counted are still to be passed over. *)
Fixpoint count_from (p : string) (skip : nat) (s : string) : nat :=
  match s with
  | EmptyString => O
  | String _ s' =>
      match skip with
      | S k => count_from p k s'
      | O =>
          if String.prefix p s
          then S (count_from p (String.length p - 1) s')
          else count_from p O s'
      end
  end.

Definition count (p s : string) : nat := count_from p O s.

(** The double quote and the tabulator. *)
Definition DQUOTE : string := String "034"%char EmptyString.
Definition TAB : string := String "009"%char EmptyString.

End Text.

(* ================================================================= *)
(** * CPU probe: the readers of [/proc] and [/sys] *)

Section CpuProbe.
Variable w : World.
Local Open Scope result_scope.

(** One line of [/proc/cpuinfo]: a field is taken from the first line
    that names it. *)
Definition cpuinfo_line (info : Dict.t value) (line : string)
  : Dict.t value :=
  if Py.contains_char ":" line then
    let (key, val) := Py.split_once ":" line in
    let key := Py.strip key in
    let val := Py.strip val in
    if String.eqb key "model name" && negb (Dict.contains "model_name" info)
    then Dict.set_item "model_name" (VStr val) info
    else if String.eqb key "vendor_id" && negb (Dict.contains "vendor" info)
    then Dict.set_item "vendor" (VStr val) info
    else if String.eqb key "cpu family" && negb (Dict.contains "family" info)
    then Dict.set_item "family" (VStr val) info
    else if String.eqb key "model" && negb (Dict.contains "model_id" info)
    then Dict.set_item "model_id" (VStr val) info
    else if String.eqb key "stepping" && negb (Dict.contains "stepping" info)
    then Dict.set_item "stepping" (VStr val) info
    else if String.eqb key "cache size"
            && negb (Dict.contains "cache_size" info)
    then Dict.set_item "cache_size" (VStr val) info
    else if String.eqb key "flags" && negb (Dict.contains "features" info)
    then
      let features := firstn 10 (Text.split_ws val) in
      Dict.set_item "features" (VStr (Py.join " " features ++ "...")) info
    else info
  else info.

(** [SystemInfo.get_linux_cpu_info] *)
Definition get_linux_cpu_info : Dict.t value :=
  match open_read w "/proc/cpuinfo" with
  | None => []
  | Some cpuinfo =>
      let info := fold_left cpuinfo_line (Py.split_char Py.LF cpuinfo) [] in
      let logical_cores :=
        Text.count ("processor" ++ Text.TAB ++ ":") cpuinfo in
      if (0 <? logical_cores)%nat
      then Dict.set_item "logical_cores" (VInt (Z.of_nat logical_cores)) info
      else info
  end.



(** [SystemInfo.get_cpu_usage]: [None] when [/proc/loadavg] cannot be
    read; the handler names [IOError] only. *)
Definition get_cpu_usage : result (option string) :=
  match open_read w "/proc/loadavg" with
  | None => Ok None
  | Some content =>
      match Text.split_ws (Py.strip content) with
      | a :: b :: c :: _ =>
          Ok (Some (a ++ " (1min), " ++ b ++ " (5min), " ++ c ++ " (15min)"))
      | _ => Raise (IndexError "list index out of range")
      end
  end.

End CpuProbe.

(* ================================================================= *)
(** * Devices listed by [lspci] *)

(** [':'.join(line.split(':')[2:]).strip()] *)
Definition pci_description (line : string) : string :=
  Py.strip (Py.join ":" (skipn 2 (Py.split_char ":" line))).

(** The descriptions of the lines that are not blank. *)
Definition pci_descriptions (stdout : string) : list string :=
  map pci_description
      (filter (fun line => Py.truthy (Py.strip line))
              (Py.split_char Py.LF stdout)).

(** [enumerate(xs, 1)] *)
Definition enumerate_from_1 {A} (xs : list A) : list (nat * A) :=
  combine (seq 1 (List.length xs)) xs.

(** One device is stored under [single]; several are numbered from 1
    under [numbered]. *)
Definition device_fields (single numbered : string) (devices : list string)
  : Dict.t string :=
  match devices with
  | [] => []
  | [device] => Dict.set_item single device []
  | _ =>
      fold_left
        (fun info id =>
           Dict.set_item (numbered ++ Py.str_of_Z (Z.of_nat (fst id)))
                         (snd id) info)
        (enumerate_from_1 devices) []
  end.

Section PciProbe.
Variable w : World.
Local Open Scope result_scope.

(** The common body of the three hardware listings. *)
Definition lspci_devices (cmdline single numbered : string)
  : result (Dict.t string) :=
  found <- command_exists w "lspci" ;;
  if found : bool then
    r <- run_command w (CmdLine cmdline) true ;;
    let '(stdout, _, returncode) := r in
    if (returncode =? 0) && Py.truthy stdout
    then Ok (device_fields single numbered (pci_descriptions stdout))
    else Ok []
  else Ok [].

(** [SystemInfo.get_gpu_hardware] *)
Definition get_gpu_hardware : result (Dict.t string) :=
  lspci_devices
    ("lspci | grep -i " ++ Text.DQUOTE ++ "vga\|3d\|display" ++ Text.DQUOTE)
    "gpu" "gpu_".

(** [SystemInfo.get_audio_hardware] *)
Definition get_audio_hardware : result (Dict.t string) :=
  lspci_devices
    ("lspci | grep -i " ++ Text.DQUOTE ++ "audio\|sound" ++ Text.DQUOTE)
    "audio_hardware" "audio_device_".

(** [SystemInfo.get_network_hardware] *)
Definition get_network_hardware : result (Dict.t string) :=
  lspci_devices
    ("lspci | grep -i " ++ Text.DQUOTE ++ "network\|ethernet\|wireless\|wifi"
       ++ Text.DQUOTE)
    "network_hardware" "network_device_".

End PciProbe.

(* ================================================================= *)
(** * Display server and connectivity *)

Section SessionProbe.
Variable w : World.
(** [os.getenv]: the environment of the process. *)
Variable getenv : string -> option string.
Local Open Scope result_scope.

(** [for name in names: if pgrep finds it: return name], then the
    fallback. *)
Fixpoint first_running (names : list string) (fallback : string)
  : result string :=
  match names with
  | [] => Ok fallback
  | name :: rest =>
      r <- run_command w (CmdLine ("pgrep -x " ++ name)) true ;;
      let '(_, _, returncode) := r in
      if returncode =? 0 then Ok name else first_running rest fallback
  end.

Definition compositors : list string :=
  ["sway"; "weston"; "mutter"; "kwin_wayland"; "river"; "wayfire"; "hyprland"].

Definition wms : list string :=
  ["i3"; "awesome"; "dwm"; "bspwm"; "openbox"; "xfwm4"; "kwin"].

(** [SystemInfo.detect_wayland_compositor] *)
Definition detect_wayland_compositor : result string :=
  first_running compositors "Unknown Wayland Compositor".

(** [SystemInfo.detect_x11_window_manager] *)
Definition detect_x11_window_manager : result string :=
  first_running wms "Unknown WM".

(** The truth value of [os.getenv(name)]. *)
Definition env_set (name : string) : bool :=
  match getenv name with
  | Some v => Py.truthy v
  | None => false
  end.

(** [SystemInfo.get_display_server_info] *)
Definition get_display_server_info : result (Dict.t string) :=
  let session_type :=
    match getenv "XDG_SESSION_TYPE" with
    | Some v => v
    | None => "Unknown"
    end in
  let info := Dict.set_item "session_type" session_type [] in
  if env_set "WAYLAND_DISPLAY" || String.eqb session_type "wayland" then
    let info := Dict.set_item "display_server" "Wayland" info in
    compositor <- detect_wayland_compositor ;;
    if Py.truthy compositor
    then Ok (Dict.set_item "compositor" compositor info)
    else Ok info
  else if env_set "DISPLAY" then
    let info := Dict.set_item "display_server" "X11" info in
    wm <- detect_x11_window_manager ;;
    if Py.truthy wm
    then Ok (Dict.set_item "window_manager" wm info)
    else Ok info
  else Ok (Dict.set_item "display_server" "Console/TTY" info).

Definition test_hosts : list string := ["8.8.8.8"; "google.com"].

Fixpoint ping_each (hosts : list string) : result string :=
  match hosts with
  | [] => Ok "No connectivity"
  | host :: rest =>
      r <- run_command w (CmdLine ("ping -c 1 -W 2 " ++ host)) true ;;
      let '(_, _, returncode) := r in
      if returncode =? 0 then Ok "Connected" else ping_each rest
  end.

(** [SystemInfo.test_connectivity] *)
Definition test_connectivity : result string := ping_each test_hosts.

End SessionProbe.

(* ================================================================= *)
(** * Memory hardware *)

Section MemoryHardware.
Variable w : World.
Local Open Scope result_scope.

(** The truth value of a variable that is [None] or a [str]. *)
Definition opt_truthy (v : option string) : bool :=
  match v with
  | Some s => Py.truthy s
  | None => false
  end.

(** [line.split(':', 1)[1].strip()] for a line that holds a colon. *)
Definition after_colon (line : string) : string :=
  Py.strip (snd (Py.split_once ":" line)).

(** One line of the output of [dmidecode -t memory]; the accumulator is
    [(slots, speed, mem_type)]. *)
Definition dmidecode_step (acc : Z * option string * option string)
    (line : string) : Z * option string * option string :=
  let '(slots, speed, mem_type) := acc in
  if Py.contains "Memory Device" line then (slots + 1, speed, mem_type)
  else if Py.contains "Type:" line && negb (Py.contains "Error" line) then
    if negb (opt_truthy mem_type)
    then (slots, speed, Some (after_colon line))
    else acc
  else if Py.contains "Speed:" line && negb (Py.contains "Unknown" line) then
    if negb (opt_truthy speed)
    then (slots, Some (after_colon line), mem_type)
    else acc
  else acc.

(** [SystemInfo.get_memory_hardware_info] *)
Definition get_memory_hardware_info : result (Dict.t value) :=
  found <- command_exists w "dmidecode" ;;
  if found : bool then
    r <- run_command w (CmdLine "sudo dmidecode -t memory 2>/dev/null") true ;;
    let '(stdout, _, returncode) := r in
    if (returncode =? 0) && Py.truthy stdout then
      let '(slots, speed, mem_type) :=
        fold_left dmidecode_step (Py.split_char Py.LF stdout)
                  (0, None, None) in
      let info := [] in
      let info :=
        if 0 <? slots then Dict.set_item "memory_slots" (VInt slots) info
        else info in
      let info :=
        match mem_type with
        | Some t =>
            if Py.truthy t then Dict.set_item "memory_type" (VStr t) info
            else info
        | None => info
        end in
      let info :=
        match speed with
        | Some s =>
            if Py.truthy s then Dict.set_item "memory_speed" (VStr s) info
            else info
        | None => info
        end in
      Ok info
    else Ok []
  else Ok [].

End MemoryHardware.

(* ================================================================= *)
(** * Concrete worlds *)

(** A machine with no readable file, no directory entry and no program:
    every [Popen] fails with [FileNotFoundError]. *)
Definition bare_world : World :=
  {| subprocess_run :=
       fun args => Raised (FileNotFoundError (hd EmptyString args));
     open_read := fun _ => None;
     path_exists := fun _ => false;
     scandir := fun _ => [];
     now_isoformat := "2024-01-01T00:00:00.000000";
     now_banner := "2024-01-01 00:00:00 " |}.

(** [w] with one more readable file. *)
Definition with_file (path content : string) (w : World) : World :=
  {| subprocess_run := subprocess_run w;
     open_read := fun p => if String.eqb p path then Some content else open_read w p;
     path_exists := fun p => String.eqb p path || path_exists w p;
     scandir := scandir w;
     now_isoformat := now_isoformat w;
     now_banner := now_banner w |}.

(** [w] with one more directory and its entries. *)
Definition with_dir (dir : string) (names : list string) (w : World) : World :=
  {| subprocess_run := subprocess_run w;
     open_read := open_read w;
     path_exists := fun p => String.eqb p dir || path_exists w p;
     scandir := fun p => if String.eqb p dir then names else scandir w p;
     now_isoformat := now_isoformat w;
     now_banner := now_banner w |}.

Fixpoint args_eqb (a b : list string) : bool :=
  match a, b with
  | [], [] => true
  | x :: a', y :: b' => String.eqb x y && args_eqb a' b'
  | _, _ => false
  end.

(** [w] with one more program on the PATH: [which] finds it, and the
    shell command line [cmdline] has the given outcome. *)
Definition with_program (name cmdline : string) (outcome : run_outcome)
    (w : World) : World :=
  {| subprocess_run :=
       fun args =>
         if args_eqb args ["which"; name]
         then Completed ("/usr/bin/" ++ name) "" 0
         else if args_eqb args ["/bin/sh"; "-c"; cmdline] then outcome
         else subprocess_run w args;
     open_read := open_read w;
     path_exists := path_exists w;
     scandir := scandir w;
     now_isoformat := now_isoformat w;
     now_banner := now_banner w |}.

Definition console : SystemInfo :=
  {| verbose := false; brief := false; output_json := false |}.

Definition json : SystemInfo :=
  {| verbose := false; brief := false; output_json := true |}.


(** A machine whose only thermal zone reads five degrees below zero. *)
Definition frozen_world : World :=
  with_file "/sys/class/thermal/thermal_zone0/temp" ("-5000" ++ NL)
    (with_dir "/sys/class/thermal" ["cooling_device0"; "thermal_zone0"]
       bare_world).

(** A machine with one USB device besides the root hub. *)
Definition usb_world : World :=
  with_program "lsusb" "lsusb"
    (Completed
       ("Bus 001 Device 001: ID 1d6b:0002 Linux Foundation 2.0 root hub" ++ NL
        ++ "Bus 001 Device 002: ID 046d:c52b Logitech, Inc. Unifying Receiver"
        ++ NL) "" 0)
    bare_world.

(** Probe bodies that find nothing and store an empty Section. *)
Definition empty_bodies : ProbeBodies :=
  {| system_body := store "system" (VDict []);
     cpu_body := store "cpu" (VDict []);
     memory_body := store "memory" (VDict []);
     graphics_body := store "graphics" (VDict []);
     audio_body := store "audio" (VDict []);
     network_body := store "network" (VDict []);
     storage_body := store "storage" (VDict []) |}.

(** The user presses Ctrl-C while the system probe is at work. *)
Definition interrupted_bodies : ProbeBodies :=
  {| system_body := lift (Raise KeyboardInterrupt);
     cpu_body := store "cpu" (VDict []);
     memory_body := store "memory" (VDict []);
     graphics_body := store "graphics" (VDict []);
     audio_body := store "audio" (VDict []);
     network_body := store "network" (VDict []);
     storage_body := store "storage" (VDict []) |}.

(** The synthetic [/proc/meminfo] of the memory scenario. *)
Definition meminfo_scenario : string :=
  "MemTotal: 16000000 kB" ++ String Py.LF "MemAvailable: 8000000 kB".

(** A machine on which no child process can be started: every [Popen]
    fails with [PermissionError]. *)
Definition denied_world : World :=
  {| subprocess_run := fun _ => Raised (OSError "[Errno 13] Permission denied");
     open_read := fun _ => None;
     path_exists := fun _ => false;
     scandir := fun _ => [];
     now_isoformat := "2024-01-01T00:00:00.000000";
     now_banner := "2024-01-01 00:00:00 " |}.

(** A Wayland session: only the variable [WAYLAND_DISPLAY] is set. *)
Definition wayland_env (name : string) : option string :=
  if String.eqb name "WAYLAND_DISPLAY" then Some "wayland-0" else None.

(** A machine on which [dmidecode] lists two memory devices. *)
Definition dmidecode_world : World :=
  with_program "dmidecode" "sudo dmidecode -t memory 2>/dev/null"
    (Completed
       ("Memory Device" ++ NL ++ Text.TAB ++ "Type: DDR4" ++ NL
        ++ Text.TAB ++ "Speed: 3200 MT/s" ++ NL ++ "Memory Device") "" 0)
    bare_world.

(* ================================================================= *)
(** * Vocabulary of the statements *)

Section FloatVocabulary.
Import PyFloat.
Local Open Scope Q_scope.

(** The float that [int(n) / 2**k] evaluates to when it is in range. *)
Definition quotient_float (n k : Z) : Q := rn53 (inject_Z n / inject_Z (2 ^ k)).

(** The two-place decimal nearest to a float, in hundredths. *)
Definition hundredths (q : Q) : Z := rne (q * inject_Z 100).

(** The conversions with the binary logarithm of their divisor. *)
Definition conversions : list ((pyval -> result PyFloat.t) * Z) :=
  [(kb_to_gb, 20%Z); (bytes_to_gb, 30%Z)].

(** The least magnitude whose quotient by [2^k] rounds to [2^1024]. *)
Definition range_limit (k : Z) : Z := (2 ^ (1024 + k) - 2 ^ (970 + k))%Z.

End FloatVocabulary.

(** The lengths of the cells a table has in column [i]. *)
Definition column_lengths (rows : list (list string)) (i : nat) : list nat :=
  flat_map (fun row =>
              match nth_error row i with
              | Some cell => [String.length cell]
              | None => []
              end) rows.

(** The longest cell of column [i]; 0 for a column without cells. *)
Definition max_cell_length (rows : list (list string)) (i : nat) : nat :=
  list_max (column_lengths rows i).

(** A method that only prints: it returns, leaves [self.data] alone,
    and prints nothing in JSON mode. *)
Definition prints_only (self : SystemInfo) (c : M unit) : Prop :=
  forall d, exists out,
    c d = (Ok tt, d, out) /\ (output_json self = true -> out = []).


(** A method that prints nothing. *)
Definition silent {A} (c : M A) : Prop := forall d, output_of (c d) = [].

(** The unembedded probe bodies print through [print_section],
    [print_info] and [print_table] only, hence nothing in JSON mode. *)
Definition quiet_bodies (bodies : ProbeBodies) : Prop :=
  silent (system_body bodies) /\ silent (cpu_body bodies)
  /\ silent (memory_body bodies) /\ silent (graphics_body bodies)
  /\ silent (audio_body bodies) /\ silent (network_body bodies)
  /\ silent (storage_body bodies).

(** What the console has received once the first probe is entered. *)
Definition console_opening (w : World) : list printed :=
  [Line (Colors.CYAN
           ++ "╔══════════════════════════════════════════════════════════════╗"
           ++ Colors.RESET);
   Line (Colors.CYAN ++ "║" ++ Colors.RESET ++ Colors.WHITE
           ++ "           Comprehensive System Information v5.0           "
           ++ Colors.RESET ++ Colors.CYAN ++ "║" ++ Colors.RESET);
   Line (Colors.CYAN
           ++ "╚══════════════════════════════════════════════════════════════╝"
           ++ Colors.RESET);
   Line (Colors.YELLOW ++ "Generated: " ++ now_banner w ++ Colors.RESET);
   Line (NL ++ Colors.BLUE ++ "=== SYSTEM INFORMATION ===" ++ Colors.RESET)].

(** What the console shows of the USB device of [usb_world]. *)
Definition usb_row_line : string :=
  "  001  002     046d:c52b  Logitech, Inc. Unifying R...  ".

(** What the loop over the lines of [lsusb] keeps true of
    [(usb_devices, device_rows)]. *)
Definition usb_rows_consistent (acc : list string * list (list string)) : Prop :=
  List.length (fst acc) = List.length (snd acc)
  /\ Forall (fun row => List.length row = 4%nat) (snd acc)
  /\ fst acc = map (fun row => nth 3 row EmptyString) (snd acc).

(** The number a string of digits denotes, continuing from [acc]. *)
Fixpoint decimal_value (s : string) (acc : Z) : Z :=
  match s with
  | EmptyString => acc
  | String c s' => decimal_value s' (10 * acc + PyInt.digit_val c)
  end.



(** The line printed when a probe fails with the exception [e]. *)
Definition error_notice (e : exn) : printed :=
  Line (NL ++ Colors.RED ++ "An error occurred: " ++ exn_str e ++ Colors.RESET).

(** The two lines that close a console report. *)
Definition console_footer : list printed :=
  [Line (NL ++ Colors.GREEN ++ "System information scan completed."
            ++ Colors.RESET);
   Line (Colors.CYAN ++ "Script: Python System Information v5.0"
            ++ Colors.RESET)].

(** A method that leaves every Section but [name] as it was. *)
Definition touches_only {A} (name : string) (c : M A) : Prop :=
  forall d k, k <> name -> Dict.get k (data_of (c d)) = Dict.get k d.

(** A method that removes no Section from [self.data]. *)
Definition keeps_sections {A} (c : M A) : Prop :=
  forall d name,
    Dict.contains name d = true -> Dict.contains name (data_of (c d)) = true.

(** A method that has stored the Section [name] whenever it returns. *)
Definition sets_section {A} (name : string) (c : M A) : Prop :=
  forall d a,
    result_of (c d) = Ok a -> Dict.contains name (data_of (c d)) = true.

(** No unembedded probe body removes a Section. *)
Definition bodies_keep_sections (bodies : ProbeBodies) : Prop :=
  keeps_sections (system_body bodies) /\ keeps_sections (cpu_body bodies)
  /\ keeps_sections (memory_body bodies)
  /\ keeps_sections (graphics_body bodies)
  /\ keeps_sections (audio_body bodies)
  /\ keeps_sections (network_body bodies)
  /\ keeps_sections (storage_body bodies).



(** The shell command [cmdline] ran to completion with a status other
    than 0, or could not be run at all. *)
Definition command_fails (w : World) (cmdline : string) : Prop :=
  exists out err rc,
    run_command w (CmdLine cmdline) true = Ok (out, err, rc) /\ rc <> 0.

(** The shell command [cmdline] ran to completion with status 0. *)
Definition command_succeeds (w : World) (cmdline : string) : Prop :=
  exists out err, run_command w (CmdLine cmdline) true = Ok (out, err, 0).

(** [found] is the first of [names] that [pgrep -x] finds running. *)
Definition first_found (w : World) (names : list string) (found : string)
  : Prop :=
  exists before after,
    names = (before ++ found :: after)%list
    /\ Forall (fun name => command_fails w ("pgrep -x " ++ name)) before
    /\ command_succeeds w ("pgrep -x " ++ found).

(** What a detection reports: the first candidate that runs, or the
    fallback when none does. *)
Definition detection (w : World) (names : list string) (fallback found : string)
  : Prop :=
  first_found w names found
  \/ (found = fallback
      /\ Forall (fun name => command_fails w ("pgrep -x " ++ name)) names).

(** The field name of the [i]-th of several devices. *)
Definition numbered_key (numbered : string) (i : nat) : string :=
  numbered ++ Py.str_of_Z (Z.of_nat i).

(** The lines of the output of [dmidecode] that announce a device. *)
Definition memory_device_lines (stdout : string) : nat :=
  List.length (filter (Py.contains "Memory Device")
                      (Py.split_char Py.LF stdout)).

(** A text without whitespace. *)
Fixpoint no_space (s : string) : bool :=
  match s with
  | EmptyString => true
  | String c s' => negb (Py.is_space c) && no_space s'
  end.

(** A field of a line: not empty and free of whitespace. *)
Definition is_field (t : string) : Prop := t <> "" /\ no_space t = true.

(* ================================================================= *)
(** * Theorems: Command Executor *)

Lemma append_nonempty_l (a b : string) : a <> "" -> a ++ b <> "".
Proof. destruct a; simpl; congruence. Qed.



(** Whatever [subprocess.run] does, [run_command] raises only what is not
    an [Exception]: a [KeyboardInterrupt] or a [SystemExit]. *)
Lemma run_command_raises_only_base (w : World) cmd shell e :
  run_command w cmd shell = Raise e -> is_Exception e = false.
Proof.
  unfold run_command.
  destruct (subprocess_run w (popen_args cmd shell)) as [out err rc|e'];
    [discriminate|].
  destruct e'; simpl; intros H; inversion H; reflexivity.
Qed.

(** A completed child process is reported as it is, stripped. *)
Lemma run_command_completed (w : World) cmd shell out err rc :
  subprocess_run w (popen_args cmd shell) = Completed out err rc ->
  run_command w cmd shell = Ok (Py.strip out, Py.strip err, rc).
Proof. unfold run_command. intros ->. reflexivity. Qed.

(* ================================================================= *)
(** * Theorems: rounding to binary64 *)

Module PyFloatFacts.
Import PyFloat.
Local Open Scope Q_scope.

Lemma rne_bounds q : inject_Z (rne q) - (1#2) <= q /\ q <= inject_Z (rne q) + (1#2).
Proof.
  unfold rne.
  pose proof (Qfloor_le q) as Hl. pose proof (Qlt_floor q) as Hu.
  rewrite inject_Z_plus in Hu. change (inject_Z 1) with 1 in Hu.
  destruct (Qcompare_spec (q - inject_Z (Qfloor q)) (1#2)) as [H|H|H].
  - destruct (Z.even (Qfloor q)); [|rewrite inject_Z_plus; change (inject_Z 1) with 1]; lra.
  - lra.
  - rewrite inject_Z_plus; change (inject_Z 1) with 1; lra.
Qed.

Lemma rne_tie_even q :
  q == inject_Z (rne q) + (1#2) \/ q == inject_Z (rne q) - (1#2) ->
  Z.even (rne q) = true.
Proof.
  unfold rne.
  pose proof (Qfloor_le q) as Hl. pose proof (Qlt_floor q) as Hu.
  rewrite inject_Z_plus in Hu. change (inject_Z 1) with 1 in Hu.
  destruct (Qcompare_spec (q - inject_Z (Qfloor q)) (1#2)) as [H|H|H].
  - destruct (Z.even (Qfloor q)) eqn:E; intros _; [exact E|].
    rewrite Z.even_add, E. reflexivity.
  - intros [A|A]; lra.
  - rewrite inject_Z_plus; change (inject_Z 1) with 1. intros [A|A]; lra.
Qed.

Lemma rne_unique q m :
  inject_Z m - (1#2) <= q -> q <= inject_Z m + (1#2) ->
  (q == inject_Z m + (1#2) \/ q == inject_Z m - (1#2) -> Z.even m = true) ->
  rne q = m.
Proof.
  intros Hl Hu He.
  destruct (rne_bounds q) as [Rl Ru].
  pose proof (rne_tie_even q) as Re.
  destruct (Z.lt_trichotomy (rne q) m) as [H|[H|H]]; [|exact H|]; exfalso.
  - assert (H1 : (rne q + 1 <= m)%Z) by lia.
    rewrite Zle_Qle in H1. rewrite inject_Z_plus in H1. change (inject_Z 1) with 1 in H1.
    assert (E1 : Z.even (rne q) = true) by (apply Re; left; lra).
    assert (E2 : Z.even m = true) by (apply He; right; lra).
    assert (m = rne q + 1)%Z.
    { apply Z.le_antisymm; [|lia]. rewrite Zle_Qle. rewrite inject_Z_plus. change (inject_Z 1) with 1. lra. }
    subst m. rewrite Z.even_add, E1 in E2. discriminate.
  - assert (H1 : (m + 1 <= rne q)%Z) by lia.
    rewrite Zle_Qle in H1. rewrite inject_Z_plus in H1. change (inject_Z 1) with 1 in H1.
    assert (E1 : Z.even (rne q) = true) by (apply Re; right; lra).
    assert (E2 : Z.even m = true) by (apply He; left; lra).
    assert (rne q = m + 1)%Z.
    { apply Z.le_antisymm; [|lia]. rewrite Zle_Qle. rewrite inject_Z_plus. change (inject_Z 1) with 1. lra. }
    rewrite H0 in E1. rewrite Z.even_add, E2 in E1. discriminate.
Qed.

Lemma rne_mono a b : a <= b -> (rne a <= rne b)%Z.
Proof.
  intros Hab.
  destruct (rne_bounds a) as [Al Au]. destruct (rne_bounds b) as [Bl Bu].
  destruct (Z_le_gt_dec (rne a) (rne b)) as [H|H]; [exact H|exfalso].
  assert (H1 : (rne b + 1 <= rne a)%Z) by lia.
  rewrite Zle_Qle in H1. rewrite inject_Z_plus in H1. change (inject_Z 1) with 1 in H1.
  assert (E1 : Z.even (rne a) = true) by (apply rne_tie_even; right; lra).
  assert (E2 : Z.even (rne b) = true) by (apply rne_tie_even; left; lra).
  assert (rne a = rne b + 1)%Z.
  { apply Z.le_antisymm; [|lia]. rewrite Zle_Qle. rewrite inject_Z_plus. change (inject_Z 1) with 1. lra. }
  rewrite H0 in E1. rewrite Z.even_add, E2 in E1. discriminate.
Qed.

Lemma rne_inject_Z k : rne (inject_Z k) = k.
Proof. apply rne_unique; lra. Qed.

Lemma rne_opp q : rne (- q) = (- rne q)%Z.
Proof.
  destruct (rne_bounds q) as [Rl Ru].
  apply rne_unique; rewrite ?inject_Z_opp; try lra.
  intros H. rewrite Z.even_opp. apply rne_tie_even. destruct H; [right|left]; lra.
Qed.

Lemma rne_comp a b : a == b -> rne a = rne b.
Proof.
  intros H. apply Z.le_antisymm; apply rne_mono; lra.
Qed.

Lemma pow2_pos k : 0 < pow2 k.
Proof. apply Qpower_0_lt. reflexivity. Qed.

Lemma pow2_add a b : pow2 (a + b) == pow2 a * pow2 b.
Proof. apply Qpower_plus. discriminate. Qed.

Lemma pow2_succ a : pow2 (a + 1) == 2 * pow2 a.
Proof. rewrite pow2_add. change (pow2 1) with 2. lra. Qed.

Lemma pow2_le a b : (a <= b)%Z -> pow2 a <= pow2 b.
Proof. intros. apply Qpower_le_compat_l; [assumption | discriminate]. Qed.

Lemma pow2_lt_inv a b : pow2 a < pow2 b -> (a < b)%Z.
Proof. intros H. apply (Qpower_lt_compat_l_inv 2); [exact H | reflexivity]. Qed.

Lemma pow2_inject k : (0 <= k)%Z -> pow2 k == inject_Z (2 ^ k).
Proof. intros. unfold pow2. rewrite Zpower_Qpower by assumption. reflexivity. Qed.

Lemma ilog2_spec q : 0 < q -> pow2 (ilog2 q) <= q /\ q < pow2 (ilog2 q + 1).
Proof.
  intros Hq. unfold ilog2.
  destruct q as [n d]. simpl Qnum. simpl Qden.
  assert (Hn : (0 < n)%Z).
  { unfold Qlt in Hq. simpl in Hq. lia. }
  set (ln := Z.log2 n). set (ld := Z.log2 (Z.pos d)).
  assert (Hln : (0 <= ln)%Z) by apply Z.log2_nonneg.
  assert (Hld : (0 <= ld)%Z) by apply Z.log2_nonneg.
  destruct (Z.log2_spec n Hn) as [Ln1 Ln2]. fold ln in Ln1, Ln2.
  destruct (Z.log2_spec (Z.pos d) (Pos2Z.is_pos d)) as [Ld1 Ld2]. fold ld in Ld1, Ld2.
  rewrite Zle_Qle in Ln1, Ld1. rewrite Zlt_Qlt in Ln2, Ld2.
  rewrite <- Z.add_1_r in Ln2, Ld2.
  rewrite <- pow2_inject in Ln1, Ln2, Ld1, Ld2 by lia.
  rewrite pow2_succ in Ln2, Ld2.
  set (q := n # d) in *.
  set (N := inject_Z n) in *. set (D := inject_Z (Z.pos d)) in *.
  assert (HqD : q * D == N).
  { unfold q, D, N. rewrite (Qmake_Qdiv n d). field. 
    intros E. unfold Qeq in E. simpl in E. lia. }
  assert (HP : pow2 (ln - ld) * pow2 ld == pow2 ln).
  { rewrite <- pow2_add. replace (ln - ld + ld)%Z with ln by lia. reflexivity. }
  pose proof (pow2_pos (ln - ld)) as P0. pose proof (pow2_pos ld) as B0.
  set (P := pow2 (ln - ld)) in *. set (A := pow2 ln) in *. set (B := pow2 ld) in *.
  destruct (Qle_bool P q) eqn:Hb.
  - apply Qle_bool_iff in Hb. split; [exact Hb|].
    rewrite pow2_succ. fold P.
    apply Qnot_le_lt. intros C.
    assert (2 * P * B <= q * D) by nra.
    lra.
  - assert (Hlt : q < P).
    { apply Qnot_le_lt. intros C. apply Qle_bool_iff in C. congruence. }
    replace (ln - ld - 1 + 1)%Z with (ln - ld)%Z by lia. fold P. split; [|exact Hlt].
    assert (E : P == 2 * pow2 (ln - ld - 1)).
    { rewrite <- pow2_succ. replace (ln - ld - 1 + 1)%Z with (ln - ld)%Z by lia. reflexivity. }
    apply Qnot_lt_le. intros C.
    assert (q * D < P * B) by nra.
    lra.
Qed.

Lemma ilog2_mono a b : 0 < a -> a <= b -> (ilog2 a <= ilog2 b)%Z.
Proof.
  intros Ha Hab.
  destruct (ilog2_spec a Ha) as [A1 _].
  destruct (ilog2_spec b) as [_ B2]; [lra|].
  assert (pow2 (ilog2 a) < pow2 (ilog2 b + 1)) by lra.
  apply pow2_lt_inv in H. lia.
Qed.

Lemma div_pow2_mono s a b : a <= b -> a / pow2 s <= b / pow2 s.
Proof.
  intros H. pose proof (pow2_pos s) as P.
  unfold Qdiv. apply Qmult_le_compat_r; [exact H|].
  apply Qlt_le_weak, Qinv_lt_0_compat, P.
Qed.

Lemma round_at_mono s a b : a <= b -> round_at s a <= round_at s b.
Proof.
  intros H. unfold round_at. pose proof (pow2_pos s) as P.
  apply Qmult_le_compat_r; [|lra].
  rewrite <- Zle_Qle. apply rne_mono, div_pow2_mono, H.
Qed.

Lemma round_at_grid s k : (0 <= k)%Z -> round_at s (pow2 (s + k)) == pow2 (s + k).
Proof.
  intros Hk. unfold round_at. pose proof (pow2_pos s) as P.
  assert (E : pow2 (s + k) / pow2 s == inject_Z (2 ^ k)).
  { rewrite pow2_add, <- pow2_inject by assumption. field. lra. }
  rewrite (rne_comp _ _ E), rne_inject_Z, <- pow2_inject by assumption.
  rewrite pow2_add. lra.
Qed.

Lemma round_at_0 s : round_at s 0 == 0.
Proof.
  unfold round_at. assert (E : 0 / pow2 s == inject_Z 0).
  { unfold Qdiv. change (inject_Z 0) with 0. lra. }
  rewrite (rne_comp _ _ E), rne_inject_Z. change (inject_Z 0) with 0. lra.
Qed.

Lemma round_at_opp s q : round_at s (- q) == - round_at s q.
Proof.
  unfold round_at.
  assert (E : - q / pow2 s == - (q / pow2 s)).
  { unfold Qdiv. lra. }
  rewrite (rne_comp _ _ E), rne_opp, inject_Z_opp. lra.
Qed.

Lemma rn53_eq q : ~ q == 0 -> rn53 q == round_at (scale_of q) q.
Proof.
  intros H. unfold rn53. destruct (Qeq_bool q 0) eqn:E.
  - apply Qeq_bool_iff in E. contradiction.
  - apply Qred_correct.
Qed.

Lemma rn53_0 q : q == 0 -> rn53 q = 0.
Proof.
  intros H. unfold rn53. apply Qeq_bool_iff in H. rewrite H. reflexivity.
Qed.

Lemma scale_of_opp q : scale_of (- q) = scale_of q.
Proof.
  unfold scale_of. f_equal. f_equal.
  unfold ilog2, Qabs, Qopp. destruct q as [n d]. simpl.
  rewrite Z.abs_opp. reflexivity.
Qed.

Lemma rn53_opp q : rn53 (- q) == - rn53 q.
Proof.
  destruct (Qeq_dec q 0) as [H|H].
  - rewrite (rn53_0 q H), (rn53_0 (- q)) by lra. reflexivity.
  - rewrite !rn53_eq by lra. rewrite scale_of_opp. apply round_at_opp.
Qed.

Lemma rn53_nonneg q : 0 <= q -> 0 <= rn53 q.
Proof.
  intros H. destruct (Qeq_dec q 0) as [E|E].
  - rewrite (rn53_0 q E). lra.
  - rewrite rn53_eq by assumption. rewrite <- (round_at_0 (scale_of q)).
    apply round_at_mono, H.
Qed.

Lemma rn53_pos_mono a b : 0 < a -> a <= b -> rn53 a <= rn53 b.
Proof.
  intros Ha Hab.
  rewrite !rn53_eq by lra.
  assert (Ea : Qabs a == a) by (apply Qabs_pos; lra).
  assert (Eb : Qabs b == b) by (apply Qabs_pos; lra).
  assert (Ha' : 0 < Qabs a) by lra. assert (Hab' : Qabs a <= Qabs b) by lra.
  pose proof (ilog2_mono _ _ Ha' Hab') as Hl.
  destruct (ilog2_spec _ Ha') as [_ A2].
  destruct (ilog2_spec (Qabs b)) as [B1 _]; [lra|].
  unfold scale_of.
  set (ea := ilog2 (Qabs a)) in *. set (eb := ilog2 (Qabs b)) in *.
  destruct (Z.eq_dec (Z.max (ea - 52) (-1074)) (Z.max (eb - 52) (-1074))) as [E|E].
  - rewrite E. apply round_at_mono, Hab.
  - set (sa := Z.max (ea - 52) (-1074)) in *. set (sb := Z.max (eb - 52) (-1074)) in *.
    assert (Hs : (sa < sb /\ sb = eb - 52 /\ ea + 1 <= eb)%Z) by lia.
    destruct Hs as (Hs1 & Hs2 & Hs3).
    apply Qle_trans with (pow2 eb).
    + replace eb with (sa + (eb - sa))%Z at 1 by lia.
      rewrite <- (round_at_grid sa (eb - sa)) by lia.
      apply round_at_mono. replace (sa + (eb - sa))%Z with eb by lia.
      pose proof (pow2_le (ea + 1) eb Hs3). lra.
    + replace eb with (sb + (eb - sb))%Z at 1 by lia.
      rewrite <- (round_at_grid sb (eb - sb)) by lia.
      apply round_at_mono. replace (sb + (eb - sb))%Z with eb by lia. lra.
Qed.

Theorem rn53_mono a b : a <= b -> rn53 a <= rn53 b.
Proof.
  intros Hab.
  destruct (Qlt_le_dec 0 a) as [Ha|Ha].
  - apply rn53_pos_mono; assumption.
  - destruct (Qlt_le_dec b 0) as [Hb|Hb].
    + assert (H : rn53 (- b) <= rn53 (- a)) by (apply rn53_pos_mono; lra).
      rewrite !rn53_opp in H. lra.
    + assert (0 <= rn53 b) by (apply rn53_nonneg, Hb).
      assert (0 <= rn53 (- a)) by (apply rn53_nonneg; lra).
      rewrite rn53_opp in H0. lra.
Qed.

Lemma ilog2_unique q e :
  pow2 e <= q -> q < pow2 (e + 1) -> ilog2 q = e.
Proof.
  intros H1 H2. pose proof (pow2_pos e) as P.
  destruct (ilog2_spec q) as [A1 A2]; [lra|].
  assert (B1 : pow2 (ilog2 q) < pow2 (e + 1)) by lra.
  assert (B2 : pow2 e < pow2 (ilog2 q + 1)) by lra.
  apply pow2_lt_inv in B1, B2. lia.
Qed.

Lemma Qabs_rn53 q : Qabs (rn53 q) == rn53 (Qabs q).
Proof.
  destruct (Qlt_le_dec q 0) as [H|H].
  - assert (E : Qabs q == - q) by (apply Qabs_neg; lra).
    assert (rn53 (- q) = rn53 (Qabs q)) as <-.
    { unfold Qabs, Qopp. destruct q as [[|n|n] d]; try reflexivity.
      exfalso. unfold Qlt in H. simpl in H. lia. }
    rewrite rn53_opp. apply Qabs_neg.
    assert (0 <= rn53 (- q)) by (apply rn53_nonneg; lra).
    rewrite rn53_opp in H0. lra.
  - assert (rn53 (Qabs q) = rn53 q) as ->.
    { unfold Qabs. destruct q as [[|n|n] d]; try reflexivity.
      exfalso. unfold Qle in H. simpl in H. lia. }
    apply Qabs_pos, rn53_nonneg, H.
Qed.

(** Below [2^1024 - 2^970] nothing rounds up to [2^1024]. *)
Lemma rn53_in_range q :
  Qabs q < pow2 1024 - pow2 970 -> overflows (rn53 q) = false.
Proof.
  intros H. unfold overflows.
  destruct (Qle_bool (pow2 1024) (Qabs (rn53 q))) eqn:E; [exfalso|reflexivity].
  apply Qle_bool_iff in E. rewrite Qabs_rn53 in E.
  pose proof (Qabs_nonneg q) as Hn.
  set (a := Qabs q) in *.
  destruct (Qeq_dec a 0) as [Z0|NZ].
  { rewrite (rn53_0 a Z0) in E. pose proof (pow2_pos 1024). lra. }
  assert (Ha : 0 < a) by lra.
  rewrite rn53_eq in E by assumption.
  assert (Ea : Qabs a == a) by (apply Qabs_pos; lra).
  assert (Ha' : 0 < Qabs a) by lra.
  destruct (ilog2_spec _ Ha') as [A1 A2].
  pose proof (pow2_pos 970) as P970.
  assert (He : (ilog2 (Qabs a) < 1024)%Z).
  { apply pow2_lt_inv. lra. }
  unfold scale_of in E. set (e := ilog2 (Qabs a)) in *.
  destruct (Z.eq_dec e 1023) as [E1|E1].
  - rewrite E1 in E. change (Z.max (1023 - 52) (-1074)) with 971%Z in E.
    unfold round_at in E.
    destruct (rne_bounds (a / pow2 971)) as [R1 _].
    assert (X : a / pow2 971 < inject_Z (2 ^ 53) - (1 # 2)).
    { rewrite <- pow2_inject by lia.
      assert (E2 : pow2 1024 == pow2 53 * pow2 971) by (rewrite <- pow2_add; reflexivity).
      assert (E3 : pow2 971 == 2 * pow2 970) by (rewrite <- pow2_succ; reflexivity).
      pose proof (pow2_pos 971) as P971.
      apply Qlt_shift_div_r; [exact P971|]. lra. }
    assert (Y : (rne (a / pow2 971) <= 2 ^ 53 - 1)%Z).
    { assert (inject_Z (rne (a / pow2 971)) < inject_Z (2 ^ 53)) by lra.
      rewrite <- Zlt_Qlt in H0. lia. }
    rewrite Zle_Qle in Y. unfold Z.sub in Y. rewrite inject_Z_plus in Y.
    rewrite <- pow2_inject in Y by lia.
    assert (E2 : pow2 1024 == pow2 53 * pow2 971) by (rewrite <- pow2_add; reflexivity).
    pose proof (pow2_pos 971) as P971.
    change (inject_Z (- (1))) with (- (1)) in Y.
    assert (inject_Z (rne (a / pow2 971)) * pow2 971 <= (pow2 53 + - (1)) * pow2 971).
    { apply Qmult_le_compat_r; lra. }
    lra.
  - set (s := Z.max (e - 52) (-1074)) in *.
    assert (Hs : (s <= 1023)%Z) by lia.
    assert (a <= pow2 1023).
    { pose proof (pow2_le (e + 1) 1023 ltac:(lia)). lra. }
    pose proof (round_at_mono s _ _ H0) as M.
    assert (G : round_at s (pow2 1023) == pow2 1023).
    { replace 1023%Z with (s + (1023 - s))%Z by lia. apply round_at_grid. lia. }
    assert (pow2 1024 == 2 * pow2 1023) by (rewrite <- pow2_succ; reflexivity).
    pose proof (pow2_pos 1023). lra.
Qed.

(** From [2^1024 - 2^970] on everything rounds to [2^1024] or more. *)
Lemma rn53_out_of_range q :
  pow2 1024 - pow2 970 <= Qabs q -> overflows (rn53 q) = true.
Proof.
  intros H. unfold overflows. apply Qle_bool_iff. rewrite Qabs_rn53.
  assert (E : rn53 (pow2 1024 - pow2 970) == pow2 1024).
  { apply Qeq_bool_iff. vm_compute. reflexivity. }
  rewrite <- E. apply rn53_mono, H.
Qed.

End PyFloatFacts.

(* ================================================================= *)
(** * Theorems: unit conversions *)

Section UnitConversions.
Import PyFloat PyFloatFacts.
Local Open Scope Q_scope.


Lemma round_2 q : PyFloat.round (Fin q) 2 = PyFloat.lit (hundredths q # 100).
Proof. reflexivity. Qed.

Lemma quotient_in_range n k :
  (0 <= k)%Z ->
  (Z.abs n < 2 ^ (1024 + k) - 2 ^ (970 + k))%Z ->
  overflows (quotient_float n k) = false.
Proof.
  intros Hk H. apply rn53_in_range.
  rewrite Zlt_Qlt in H. unfold Z.sub in H.
  rewrite inject_Z_plus, inject_Z_opp, <- !pow2_inject in H by lia.
  rewrite !pow2_add in H. rewrite <- (pow2_inject k) by lia.
  pose proof (pow2_pos k) as P.
  assert (E : Qabs (inject_Z n / pow2 k) == inject_Z (Z.abs n) / pow2 k).
  { unfold Qdiv. rewrite Qabs_Qmult.
    rewrite (Qabs_pos (/ pow2 k)) by (apply Qlt_le_weak, Qinv_lt_0_compat, P).
    apply Qmult_comp; [|reflexivity].
    unfold Qabs, inject_Z. reflexivity. }
  rewrite E. apply Qlt_shift_div_r; [exact P|]. lra.
Qed.

Lemma quotient_abs n k :
  (0 <= k)%Z ->
  Qabs (inject_Z n / inject_Z (2 ^ k)) == inject_Z (Z.abs n) / pow2 k.
Proof.
  intros Hk. rewrite <- (pow2_inject k) by lia.
  pose proof (pow2_pos k) as P.
  unfold Qdiv. rewrite Qabs_Qmult.
  rewrite (Qabs_pos (/ pow2 k)) by (apply Qlt_le_weak, Qinv_lt_0_compat, P).
  apply Qmult_comp; [|reflexivity].
  unfold Qabs, inject_Z. reflexivity.
Qed.

(** At the limit and beyond, the division raises. *)
Lemma round_quotient_overflow n k :
  (0 <= k)%Z ->
  (2 ^ (1024 + k) - 2 ^ (970 + k) <= Z.abs n)%Z ->
  round_quotient (PyInt n) (2 ^ k)
  = Raise (OverflowError "integer division result too large for a float").
Proof.
  intros Hk H. unfold round_quotient, PyInt.int, truediv.
  assert (Hz : (2 ^ k =? 0)%Z = false).
  { apply Z.eqb_neq. pose proof (Z.pow_pos_nonneg 2 k). lia. }
  rewrite Hz. rewrite rn53_out_of_range; [reflexivity|].
  rewrite quotient_abs by assumption.
  rewrite Zle_Qle in H. unfold Z.sub in H.
  rewrite inject_Z_plus, inject_Z_opp, <- !pow2_inject in H by lia.
  rewrite !pow2_add in H.
  pose proof (pow2_pos k) as P.
  apply Qle_shift_div_l; [exact P|]. lra.
Qed.

Lemma round_quotient_int n k :
  (0 <= k)%Z ->
  (Z.abs n < 2 ^ (1024 + k) - 2 ^ (970 + k))%Z ->
  round_quotient (PyInt n) (2 ^ k)
  = Ok (PyFloat.lit (hundredths (quotient_float n k) # 100)).
Proof.
  intros Hk H. unfold round_quotient, PyInt.int, truediv.
  assert (Hz : (2 ^ k =? 0)%Z = false).
  { apply Z.eqb_neq. pose proof (Z.pow_pos_nonneg 2 k). lia. }
  rewrite Hz. fold (quotient_float n k).
  rewrite (quotient_in_range n k Hk H). rewrite round_2. reflexivity.
Qed.






End UnitConversions.

Section UnitConversionClaim.
Import PyFloat PyFloatFacts.
Local Open Scope Q_scope.


Lemma conversions_unfold conv k :
  In (conv, k) conversions ->
  (0 <= k)%Z /\
  forall v, conv v = except_value_type_error (round_quotient v (2 ^ k)).
Proof.
  intros [H | [H | []]]; inversion H; subst; split; try lia; reflexivity.
Qed.


(** The range of C8 is exact: from the limit on, both conversions raise
    [OverflowError], which their handler does not name. *)
Lemma unit_conversions_raise_beyond_limit
    (conv : pyval -> result PyFloat.t) (k x : Z) :
  In (conv, k) conversions ->
  (range_limit k <= Z.abs x)%Z ->
  conv (PyInt x)
  = Raise (OverflowError "integer division result too large for a float").
Proof.
  intros Hc Hx. destruct (conversions_unfold conv k Hc) as [Hk Hconv].
  rewrite Hconv, (round_quotient_overflow x k Hk Hx). reflexivity.
Qed.



End UnitConversionClaim.

(* ================================================================= *)
(** * Theorems: memory probe *)

(** C2. On the scenario's [/proc/meminfo] the parser yields exactly four
    fields: 15.26, 7.63, 7.63 and 50.0; the first is 16000000 / 1024^2
    (15625/1024, that is 15.2587890625) rounded to two places and the last
    is one half times 100 rounded to one place. *)
Theorem memory_scenario_fields (w : World) :
  open_read w "/proc/meminfo" = Some meminfo_scenario ->
  get_linux_memory_info w
  = Ok [("total_ram_gb", VFloat (PyFloat.lit 15.26));
        ("available_ram_gb", VFloat (PyFloat.lit 7.63));
        ("used_ram_gb", VFloat (PyFloat.lit 7.63));
        ("usage_percent", VFloat (PyFloat.lit 50.0))]
  /\ PyFloat.truediv 16000000 (1024 ^ 2) = Ok (PyFloat.Fin (15625 # 1024))
  /\ PyFloat.round (PyFloat.Fin (15625 # 1024)) 2 = PyFloat.lit 15.26
  /\ PyFloat.truediv (16000000 - 8000000) 16000000 = Ok (PyFloat.Fin (1 # 2))
  /\ PyFloat.round (PyFloat.mul (PyFloat.Fin (1 # 2)) (PyFloat.Fin 100)) 1
     = PyFloat.lit 50.0.
Proof.
  intros H. unfold get_linux_memory_info. rewrite H.
  repeat split; vm_compute; reflexivity.
Qed.

Lemma memory_scenario_fields_witness :
  get_linux_memory_info (with_file "/proc/meminfo" meminfo_scenario bare_world)
  = Ok [("total_ram_gb", VFloat (PyFloat.lit 15.26));
        ("available_ram_gb", VFloat (PyFloat.lit 7.63));
        ("used_ram_gb", VFloat (PyFloat.lit 7.63));
        ("usage_percent", VFloat (PyFloat.lit 50.0))].
Proof.
  apply (memory_scenario_fields
           (with_file "/proc/meminfo" meminfo_scenario bare_world)).
  reflexivity.
Defined.

(* ================================================================= *)
(** * Theorems: console tables *)

Section TableFacts.


Lemma string_length_append (a b : string) :
  String.length (a ++ b) = (String.length a + String.length b)%nat.
Proof. induction a; simpl; congruence. Qed.

Lemma length_repeat_char c n : String.length (Py.repeat_char c n) = n.
Proof. induction n; simpl; congruence. Qed.

Lemma length_take n s : String.length (Py.take n s) = Nat.min n (String.length s).
Proof.
  revert s. induction n; intros [|c s]; simpl; try reflexivity.
  rewrite IHn. reflexivity.
Qed.

Lemma length_ljust s width :
  String.length (Py.ljust s width) = Nat.max (String.length s) width.
Proof.
  unfold Py.ljust. rewrite string_length_append, length_repeat_char. lia.
Qed.

Lemma column_width_fold rows i init :
  fold_left
    (fun max_width row =>
       match nth_error row i with
       | Some cell => Nat.max max_width (String.length cell)
       | None => max_width
       end) rows init
  = Nat.max init (max_cell_length rows i).
Proof.
  unfold max_cell_length. revert init.
  induction rows as [|row rows IH]; intros init; simpl.
  - lia.
  - rewrite IH. unfold column_lengths. cbn [flat_map].
    rewrite list_max_app.
    fold (column_lengths rows i).
    generalize (list_max (column_lengths rows i)) as m. intros m.
    destruct (nth_error row i) as [cell|]; cbn [list_max fold_right].
    + rewrite Nat.max_0_r. apply eq_sym, Nat.max_assoc.
    + reflexivity.
Qed.

Lemma column_width_formula rows i header :
  column_width rows i header
  = Nat.min (Nat.max (String.length header) (max_cell_length rows i) + 2) 30.
Proof. unfold column_width. rewrite column_width_fold. reflexivity. Qed.





Lemma cell_le_max rows row i cell :
  In row rows -> nth_error row i = Some cell ->
  (String.length cell <= max_cell_length rows i)%nat.
Proof.
  intros Hin Hc. unfold max_cell_length.
  assert (Hl : In (String.length cell) (column_lengths rows i)).
  { unfold column_lengths. apply in_flat_map. exists row. split; [exact Hin|].
    rewrite Hc. left. reflexivity. }
  pose proof (list_max_le (column_lengths rows i) (list_max (column_lengths rows i))) as [F _].
  specialize (F (Nat.le_refl _)).
  rewrite Forall_forall in F. apply F, Hl.
Qed.

(** A row line is its two-space margin followed by its rendered cells. *)
Lemma render_row_cells row widths :
  render_row row widths
  = "  " ++ String.concat "" (map (fun cw => render_cell (fst cw) (snd cw))
                                   (combine row widths)).
Proof.
  unfold render_row. generalize "  " as acc.
  induction (combine row widths) as [|cw l IH]; intros acc; simpl.
  - destruct acc; simpl; [reflexivity|]. f_equal.
    clear. induction acc; simpl; congruence.
  - rewrite IH. 
    assert (A : forall a b c : string, (a ++ b) ++ c = a ++ (b ++ c)).
    { clear. induction a; simpl; intros; congruence. }
    rewrite A. f_equal.
    destruct l as [|cw' l']; simpl.
    + clear. induction (render_cell (fst cw) (snd cw)); simpl; congruence.
    + reflexivity.
Qed.

End TableFacts.



(* ================================================================= *)
(** * Theorems: dictionaries *)

Section DictFacts.
Context {V : Type}.
Local Open Scope list_scope.

Lemma set_item_head_other (k k0 : string) (v v0 : V) d :
  k <> k0 ->
  Dict.set_item k v ((k0, v0) :: d) = (k0, v0) :: Dict.set_item k v d.
Proof.
  intros H. simpl. destruct (String.eqb_spec k k0); [contradiction|reflexivity].
Qed.

Lemma set_item_fresh (k : string) (v : V) d :
  ~ In k (Dict.keys d) -> Dict.set_item k v d = d ++ [(k, v)].
Proof.
  induction d as [|[k0 v0] d IH]; simpl; intros H; [reflexivity|].
  destruct (String.eqb_spec k k0) as [E|E].
  - exfalso. apply H. left. symmetry. exact E.
  - rewrite IH; [reflexivity|]. intros C. apply H. right. exact C.
Qed.

Lemma get_set_item_same (k : string) (v : V) d :
  Dict.get k (Dict.set_item k v d) = Some v.
Proof.
  induction d as [|[k0 v0] d IH]; simpl.
  - rewrite String.eqb_refl. reflexivity.
  - destruct (String.eqb_spec k k0) as [E|E]; simpl.
    + rewrite String.eqb_refl. reflexivity.
    + destruct (String.eqb_spec k k0); [contradiction|exact IH].
Qed.

Lemma get_set_item_other (k k' : string) (v : V) d :
  k <> k' -> Dict.get k (Dict.set_item k' v d) = Dict.get k d.
Proof.
  intros H. induction d as [|[k0 v0] d IH]; simpl.
  - destruct (String.eqb_spec k k'); [contradiction|reflexivity].
  - destruct (String.eqb_spec k' k0) as [E|E]; simpl.
    + subst k0. destruct (String.eqb_spec k k'); [contradiction|reflexivity].
    + destruct (String.eqb_spec k k0); [reflexivity|exact IH].
Qed.





End DictFacts.

(* ================================================================= *)
(** * Theorems: placeholders in the hardware and graphics Sections *)

Lemma dmi_field_unreadable : dmi_field None = "Unknown".
Proof. reflexivity. Qed.




(* ================================================================= *)
(** * Theorems: console printing *)

Section PrintFacts.
Variable self : SystemInfo.


Lemma prints_only_ret : prints_only self (ret tt).
Proof. intros d. exists []. split; [reflexivity | intros _; reflexivity]. Qed.

Lemma prints_only_bind (c : M unit) (k : unit -> M unit) :
  prints_only self c -> (forall u, prints_only self (k u)) ->
  prints_only self (mbind c k).
Proof.
  intros Hc Hk d. destruct (Hc d) as (o1 & E1 & J1).
  destruct (Hk tt d) as (o2 & E2 & J2).
  exists (o1 ++ o2)%list. unfold mbind. rewrite E1, E2.
  split; [reflexivity|].
  intros J. rewrite (J1 J), (J2 J). reflexivity.
Qed.

Lemma prints_only_print_section title :
  prints_only self (print_section self title).
Proof.
  unfold print_section. destruct (output_json self) eqn:J; simpl.
  - apply prints_only_ret.
  - intros d. eexists. split; [reflexivity | congruence].
Qed.

Lemma prints_only_print_info label v :
  prints_only self (print_info self label v).
Proof.
  unfold print_info. destruct (output_json self) eqn:J; simpl.
  - apply prints_only_ret.
  - intros d. eexists. split; [reflexivity | congruence].
Qed.

Lemma prints_only_for_each {A} (xs : list A) (body : A -> M unit) :
  (forall x, prints_only self (body x)) -> prints_only self (for_each xs body).
Proof.
  intros H. induction xs as [|x xs IH]; simpl.
  - apply prints_only_ret.
  - apply prints_only_bind; [apply H | intros _; exact IH].
Qed.

Lemma prints_only_print_fields info :
  prints_only self (print_fields self info).
Proof.
  unfold print_fields. apply prints_only_for_each.
  intros x. apply prints_only_print_info.
Qed.

Lemma prints_only_print_table headers rows title :
  prints_only self (print_table self headers rows title).
Proof.
  unfold print_table. destruct (output_json self) eqn:J.
  - apply prints_only_ret.
  - assert (P : forall t, prints_only self (print t)).
    { intros t d. eexists. split; [reflexivity|]. congruence. }
    apply prints_only_bind.
    + destruct title as [t|]; [destruct (Py.truthy t)|];
        try apply prints_only_ret. apply P.
    + intros _. destruct rows as [|r rows]; [apply P|].
      apply prints_only_bind; [apply P|]. intros _.
      apply prints_only_bind; [apply P|]. intros _.
      apply prints_only_for_each. intros x. apply P.
Qed.

End PrintFacts.

(* ================================================================= *)
(** * Theorems: power probe *)

Section PowerFacts.
Variable w : World.
Local Open Scope list_scope.








End PowerFacts.



(* ================================================================= *)
(** * Theorems: temperature probe *)




(** On the machine at five below zero the Section holds no reading and no
    table is printed. *)
Example frozen_zone_is_silent :
  thermal_zone_names frozen_world = ["thermal_zone0"]
  /\ get_temperature_info frozen_world console []
     = (Ok [("temperature_sensors", VStr "No sensors available")],
        [("temperature",
          VDict [("temperature_sensors", VStr "No sensors available")])],
        [Line (NL ++ Colors.BLUE ++ "=== TEMPERATURE INFORMATION ==="
                  ++ Colors.RESET);
         Line (Colors.GREEN ++ "Temperature Sensors:" ++ Colors.RESET
                  ++ " No sensors available")]).
Proof. split; reflexivity. Qed.

(* ================================================================= *)
(** * Theorems: what a method prints *)

Section SilentFacts.
Variable self : SystemInfo.


Lemma silent_ret {A} (a : A) : silent (ret a).
Proof. intros d. reflexivity. Qed.

Lemma silent_lift {A} (r : result A) : silent (lift r).
Proof. intros d. reflexivity. Qed.

Lemma silent_store name info : silent (store name info).
Proof. intros d. reflexivity. Qed.

Lemma silent_bind {A B} (c : M A) (k : A -> M B) :
  silent c -> (forall a, silent (k a)) -> silent (mbind c k).
Proof.
  intros Hc Hk d. unfold mbind. specialize (Hc d). unfold output_of in *.
  destruct (c d) as [[[a|e] d'] out]; simpl in Hc; subst out.
  - specialize (Hk a d'). unfold output_of in Hk.
    destruct (k a d') as [[r d''] out']. simpl in *. exact Hk.
  - reflexivity.
Qed.

Lemma prints_only_silent (c : M unit) :
  output_json self = true -> prints_only self c -> silent c.
Proof.
  intros J H d. destruct (H d) as (out & E & Hj). rewrite E.
  unfold output_of. simpl. apply Hj, J.
Qed.

(** The output of a sequence starts with the output of its head. *)
Lemma output_bind_prefix {A B} (c : M A) (k : A -> M B) d :
  exists rest, output_of (mbind c k d) = (output_of (c d) ++ rest)%list.
Proof.
  unfold mbind, output_of. destruct (c d) as [[[a|e] d'] out]; simpl.
  - destruct (k a d') as [[r d''] out']. simpl. exists out'. reflexivity.
  - exists []. rewrite app_nil_r. reflexivity.
Qed.

End SilentFacts.

Ltac silent_step self J :=
  match goal with
  | |- silent (mbind _ _) => apply silent_bind; [|intros ?]
  | |- silent (ret _) => apply silent_ret
  | |- silent (lift _) => apply silent_lift
  | |- silent (store _ _) => apply silent_store
  | |- silent (print_section _ _) =>
      apply (prints_only_silent self _ J), prints_only_print_section
  | |- silent (print_info _ _ _) =>
      apply (prints_only_silent self _ J), prints_only_print_info
  | |- silent (print_fields _ _) =>
      apply (prints_only_silent self _ J), prints_only_print_fields
  | |- silent (print_table _ _ _ _) =>
      apply (prints_only_silent self _ J), prints_only_print_table
  | |- silent (match ?x with _ => _ end) => destruct x
  end.

Section ProbesSilentInJson.
Variable w : World.
Variable self : SystemInfo.
Hypothesis J : output_json self = true.

Lemma silent_get_hardware_info : silent (get_hardware_info w self).
Proof. unfold get_hardware_info. repeat silent_step self J. Qed.

Lemma silent_get_power_info : silent (get_power_info w self).
Proof. unfold get_power_info. repeat silent_step self J. Qed.

Lemma silent_get_usb_info : silent (get_usb_info w self).
Proof. unfold get_usb_info. repeat silent_step self J. Qed.

Lemma silent_get_temperature_info : silent (get_temperature_info w self).
Proof.
  unfold get_temperature_info, sensors_readings. repeat silent_step self J.
Qed.

End ProbesSilentInJson.

(* ================================================================= *)
(** * Theorems: Run Controller and JSON document *)

Section RunFacts.
Variable w : World.
Variable self : SystemInfo.
Variable bodies : ProbeBodies.
Local Open Scope list_scope.



Lemma silent_gather :
  output_json self = true -> quiet_bodies bodies ->
  silent (gather w self bodies).
Proof.
  intros J (Q1 & Q2 & Q3 & Q4 & Q5 & Q6 & Q7).
  unfold gather, get_system_info, get_cpu_info, get_memory_info,
    get_graphics_info, get_audio_info, get_network_info, get_storage_info.
  repeat first
    [ assumption
    | apply silent_get_hardware_info; exact J
    | apply silent_get_usb_info; exact J
    | apply silent_get_power_info; exact J
    | apply silent_get_temperature_info; exact J
    | silent_step self J ].
Qed.

(** In JSON mode the [try] body either raises having printed nothing or
    returns having printed the one document. *)
Lemma json_checks :
  output_json self = true -> quiet_bodies bodies ->
  forall d,
    (exists e d', checks w self bodies d = (Raise e, d', [])
                  /\ gather w self bodies d = (Raise e, d', []))
    \/ (exists d', checks w self bodies d
                   = (Ok tt, d', [JsonDocument (output_data w d')])
                   /\ gather w self bodies d = (Ok tt, d', [])).
Proof.
  intros J Q d. pose proof (silent_gather J Q d) as S.
  unfold checks, banner, generate_output. rewrite J. cbn [negb].
  unfold generate_json_output, print_json, mbind, ret.
  unfold output_of in S.
  destruct (gather w self bodies d) as [[[[]|e] d'] out]; simpl in S; subst out.
  - right. exists d'. split; reflexivity.
  - left. exists e, d'. split; reflexivity.
Qed.

Lemma console_checks_opening :
  output_json self = false ->
  forall d, exists rest,
    output_of (checks w self bodies d) = console_opening w ++ rest.
Proof.
  intros J d. unfold checks.
  assert (B : banner w self d = (Ok tt, d, firstn 4 (console_opening w))).
  { unfold banner. rewrite J. reflexivity. }
  unfold mbind at 1. rewrite B.
  destruct (output_bind_prefix (gather w self bodies)
              (fun _ => generate_output w self) d) as (r1 & E1).
  unfold gather in E1 at 2.
  destruct (output_bind_prefix (get_system_info self bodies)
              (fun _ => mbind (get_hardware_info w self) (fun _ =>
                        mbind (get_cpu_info self bodies) (fun _ =>
                        mbind (get_memory_info self bodies) (fun _ =>
                        mbind (get_graphics_info self bodies) (fun _ =>
                        mbind (get_audio_info self bodies) (fun _ =>
                        mbind (get_network_info self bodies) (fun _ =>
                        mbind (get_storage_info self bodies) (fun _ =>
                        mbind (get_usb_info w self) (fun _ =>
                        mbind (get_power_info w self) (fun _ =>
                        mbind (get_temperature_info w self) (fun _ =>
                        ret tt))))))))))) d) as (r2 & E2).
  rewrite E2 in E1. clear E2.
  unfold get_system_info in E1.
  destruct (output_bind_prefix
              (print_section self "SYSTEM INFORMATION")
              (fun _ => system_body bodies) d) as (r3 & E3).
  rewrite E3 in E1. clear E3.
  assert (P : output_of (print_section self "SYSTEM INFORMATION" d)
              = skipn 4 (console_opening w)).
  { unfold print_section. rewrite J. reflexivity. }
  rewrite P in E1. unfold output_of in *.
  destruct (mbind (gather w self bodies) (fun _ => generate_output w self) d)
    as [[r d''] out']. simpl in E1. subst out'. simpl.
  exists ((r3 ++ r2) ++ r1). rewrite <- !app_assoc. reflexivity.
Qed.

Lemma try_except_interrupt (body on_interrupt : M unit) on_exception d :
  result_of (body d) = Raise KeyboardInterrupt ->
  result_of (try_except body on_interrupt on_exception d)
  = result_of (on_interrupt (data_of (body d)))
  /\ output_of (try_except body on_interrupt on_exception d)
     = output_of (body d) ++ output_of (on_interrupt (data_of (body d))).
Proof.
  unfold try_except, result_of, data_of, output_of.
  destruct (body d) as [[r d'] out]. simpl. intros ->.
  destruct (on_interrupt d') as [[r' d''] out']. split; reflexivity.
Qed.

End RunFacts.

(** C4 (amended).  A JSON run whose probes return prints exactly one
    document.  Its top level has four members: [system_info], the Report
    as gathered, [generated_at], [script_version] with the value ["5.0"],
    and [script_language] with the value ["Python"]. *)
Theorem json_document_top_level
    (w : World) (self : SystemInfo) (bodies : ProbeBodies) (d : Dict.t value) :
  output_json self = true ->
  quiet_bodies bodies ->
  result_of (gather w self bodies d) = Ok tt ->
  run_all_checks w self bodies d
  = (Ok tt,
     data_of (gather w self bodies d),
     [JsonDocument
        (VDict [("system_info", VDict (data_of (gather w self bodies d)));
                ("generated_at", VStr (now_isoformat w));
                ("script_version", VStr "5.0");
                ("script_language", VStr "Python")])]).
Proof.
  intros J Q G. unfold run_all_checks, try_except.
  destruct (json_checks w self bodies J Q d)
    as [(e & d' & E & Eg) | (d' & E & Eg)].
  - rewrite Eg in G. discriminate G.
  - fold (checks w self bodies). rewrite E, Eg. reflexivity.
Qed.

Lemma json_document_top_level_witness :
  output_of (run_all_checks usb_world json empty_bodies [])
  = [JsonDocument
       (VDict [("system_info",
                VDict (data_of (gather usb_world json empty_bodies [])));
               ("generated_at", VStr "2024-01-01T00:00:00.000000");
               ("script_version", VStr "5.0");
               ("script_language", VStr "Python")])].
Proof.
  rewrite (json_document_top_level usb_world json empty_bodies []).
  - reflexivity.
  - reflexivity.
  - unfold quiet_bodies, empty_bodies. simpl.
    repeat (split; [apply silent_store|]). apply silent_store.
  - vm_compute. reflexivity.
Defined.

(** C4, as stated, fails: the document has no [schema_version] member;
    the version is under [script_version], next to [script_language]. *)
Lemma json_top_level_counterexample :
  exists members,
    main usb_world json empty_bodies = (0, [JsonDocument (VDict members)])
    /\ Dict.keys members
       = ["system_info"; "generated_at"; "script_version"; "script_language"]
    /\ Dict.get "schema_version" members = None.
Proof. eexists. split; [vm_compute; reflexivity|]. split; reflexivity. Qed.

(** C6 (amended).  A user interrupt ends the run with exit status 1 after
    one more line, the notice.  In JSON mode that line is the whole output:
    the document is printed only once every probe has returned, and what
    was gathered is dropped.  In console mode the output is streamed: the
    header and the title of the first Section, at least, precede the
    notice. *)
Theorem interrupt_exit_and_output
    (w : World) (self : SystemInfo) (bodies : ProbeBodies) (d : Dict.t value) :
  result_of (checks w self bodies d) = Raise KeyboardInterrupt ->
  exit_status (result_of (run_all_checks w self bodies d)) = 1
  /\ output_of (run_all_checks w self bodies d)
     = (output_of (checks w self bodies d) ++ [Line interrupted_notice])%list
  /\ (output_json self = true -> quiet_bodies bodies ->
      output_of (run_all_checks w self bodies d) = [Line interrupted_notice])
  /\ (output_json self = false ->
      exists rest,
        output_of (run_all_checks w self bodies d)
        = (console_opening w ++ rest ++ [Line interrupted_notice])%list).
Proof.
  intros H. unfold run_all_checks.
  destruct (try_except_interrupt (checks w self bodies)
              (mbind (print interrupted_notice) (fun _ => sys_exit 1))
              (fun e =>
                 mbind (print (NL ++ Colors.RED ++ "An error occurred: "
                                 ++ exn_str e ++ Colors.RESET))
                       (fun _ => sys_exit 1)) d H) as [R O].
  rewrite R, O. split; [reflexivity|]. split; [reflexivity|]. split.
  - intros J Q.
    destruct (json_checks w self bodies J Q d)
      as [(e & d' & E & _) | (d' & E & _)]; rewrite E in *.
    + reflexivity.
    + discriminate H.
  - intros J. destruct (console_checks_opening w self bodies J d) as (rest & E).
    exists rest. rewrite E, <- app_assoc. reflexivity.
Qed.

Lemma interrupt_exit_and_output_witness :
  exit_status (result_of (run_all_checks usb_world json interrupted_bodies [])) = 1
  /\ output_of (run_all_checks usb_world json interrupted_bodies [])
     = [Line interrupted_notice].
Proof.
  destruct (interrupt_exit_and_output usb_world json interrupted_bodies [])
    as (E & _ & Hj & _).
  - vm_compute. reflexivity.
  - split; [exact E|]. apply Hj; [reflexivity|].
    unfold quiet_bodies, interrupted_bodies. simpl.
    repeat (split; [first [apply silent_store | apply silent_lift]|]).
    apply silent_store.
Defined.

(** C6, as stated, fails in console mode: interrupted during the first
    probe, the process has already printed the header and the title of
    the Section. *)
Lemma console_interrupt_counterexample :
  main usb_world console interrupted_bodies
  = (1, (console_opening usb_world ++ [Line interrupted_notice])%list).
Proof. vm_compute. reflexivity. Qed.

(* ================================================================= *)
(** * Theorems: tables that never reach the Report *)


(** C3 fails on the code.  The console run prints the row of the USB
    device (bus, device number, id, description); the [usb] Section of the
    Report, which is all the JSON document gets, holds the count alone. *)
Lemma usb_rows_not_in_report :
  In (Line usb_row_line) (output_of (get_usb_info usb_world console []))
  /\ data_of (get_usb_info usb_world console [])
     = [("usb", VDict [("device_count", VInt 1)])]
  /\ data_of (get_usb_info usb_world json [])
     = [("usb", VDict [("device_count", VInt 1)])]
  /\ exists report,
       output_of (run_all_checks usb_world json empty_bodies [])
       = [JsonDocument
            (VDict [("system_info", VDict report);
                    ("generated_at", VStr "2024-01-01T00:00:00.000000");
                    ("script_version", VStr "5.0");
                    ("script_language", VStr "Python")])]
       /\ Dict.get "usb" report = Some (VDict [("device_count", VInt 1)]).
Proof.
  split; [vm_compute; tauto|].
  split; [reflexivity|]. split; [reflexivity|].
  eexists. split; [vm_compute; reflexivity | reflexivity].
Qed.

(** Whatever [lsusb] prints, the [usb] Section that is stored is empty or
    holds one scalar: the rows of the table are never part of it. *)
Lemma usb_section_shape (w : World) (self : SystemInfo) (d : Dict.t value) :
  (exists e, result_of (get_usb_info w self d) = Raise e)
  \/ Dict.get "usb" (data_of (get_usb_info w self d)) = Some (VDict [])
  \/ Dict.get "usb" (data_of (get_usb_info w self d))
     = Some (VDict [("devices", VStr "None detected")])
  \/ exists n,
       Dict.get "usb" (data_of (get_usb_info w self d))
       = Some (VDict [("device_count", VInt n)]).
Proof.
  unfold get_usb_info, mbind, lift, ret, store.
  destruct (prints_only_print_section self "USB INFORMATION" d)
    as (o1 & E1 & _). rewrite E1.
  destruct (command_exists w "lsusb") as [[|]|e];
    [ | right; left; unfold data_of; simpl; apply get_set_item_same
      | left; eexists; reflexivity ].
  destruct (run_command w (CmdLine "lsusb") true) as [[[out err] rc]|e];
    [ | left; eexists; reflexivity ].
  destruct ((rc =? 0)%Z && Py.truthy out);
    [ | right; left; unfold data_of; simpl; apply get_set_item_same ].
  destruct (fold_left lsusb_step (Py.split_char Py.LF out) ([], []))
    as [devices rows].
  destruct devices as [|dev devices].
  - destruct (prints_only_print_info self "USB Devices" "None detected" d)
      as (o2 & E2 & _). rewrite E2. right. right. left.
    unfold data_of. simpl. apply get_set_item_same.
  - right. right. right.
    exists (Z.of_nat (List.length (dev :: devices))).
    destruct rows as [|r rows].
    + unfold data_of. cbn [fst snd]. apply get_set_item_same.
    + destruct (prints_only_print_table self
                  ["Bus"; "Device"; "ID"; "Description"] (r :: rows)
                  (Some "USB Devices") d) as (o2 & E2 & _).
      rewrite E2. unfold data_of. cbn [fst snd]. apply get_set_item_same.
Qed.

(* ================================================================= *)
(** * Theorems: alignment of a printed table *)

Section TableAlignment.
Local Open Scope nat_scope.

Lemma length_concat_cells (cells : list string) :
  String.length (String.concat "" cells)
  = list_sum (map String.length cells).
Proof.
  induction cells as [|c cells IH]; [reflexivity|].
  destruct cells as [|c' cells'].
  - simpl. lia.
  - change (String.concat "" (c :: c' :: cells'))
      with (c ++ "" ++ String.concat "" (c' :: cells'))%string.
    rewrite !string_length_append, IH. simpl. lia.
Qed.

Lemma length_separator_from (hws : list (string * nat)) (start : string) :
  String.length
    (fold_left (fun line hw => (line ++ Py.repeat_char "-" (snd hw))%string)
               hws start)
  = String.length start + list_sum (map snd hws).
Proof.
  revert start. induction hws as [|hw hws IH]; intros start; simpl.
  - lia.
  - rewrite IH, string_length_append, length_repeat_char. lia.
Qed.

(** A cell of the table fills its column exactly. *)
Lemma render_cell_fills_column rows i header row cell :
  In row rows -> nth_error row i = Some cell ->
  String.length (render_cell cell (column_width rows i header))
  = column_width rows i header.
Proof.
  intros Hin Hc. pose proof (cell_le_max rows row i cell Hin Hc) as Hle.
  rewrite column_width_formula.
  set (width := Nat.min (Nat.max (String.length header)
                                 (max_cell_length rows i) + 2) 30).
  unfold render_cell.
  destruct (Z.ltb_spec (Z.of_nat width - 2) (Z.of_nat (String.length cell)))
    as [L|L].
  - assert (E : width = 30) by (unfold width in *; lia).
    rewrite E in *. unfold Py.slice_to.
    change (Z.of_nat 30 - 5 <? 0)%Z with false.
    change (Z.to_nat (Z.of_nat 30 - 5)) with 25.
    rewrite length_ljust, string_length_append, length_take.
    change (String.length "...") with 3. lia.
  - rewrite length_ljust. unfold width in *. lia.
Qed.

Lemma combine_widths_sum rows row :
  In row rows ->
  forall k (hs : list string) (cells : list string),
    (forall j cell, nth_error cells j = Some cell ->
                    nth_error row (k + j) = Some cell) ->
    List.length cells = List.length hs ->
    list_sum
      (map (fun cw => String.length (render_cell (fst cw) (snd cw)))
           (combine cells
              (map (fun ih => column_width rows (fst ih) (snd ih))
                   (combine (seq k (List.length hs)) hs))))
    = list_sum
        (map snd
           (combine hs
              (map (fun ih => column_width rows (fst ih) (snd ih))
                   (combine (seq k (List.length hs)) hs)))).
Proof.
  intros Hin k hs. revert k.
  induction hs as [|h hs IH]; intros k cells Hcells Hlen.
  - destruct cells; [reflexivity | discriminate].
  - destruct cells as [|c cells]; [discriminate|].
    simpl. f_equal.
    + apply (render_cell_fills_column rows k h row c Hin).
      specialize (Hcells 0 c eq_refl). rewrite Nat.add_0_r in Hcells.
      exact Hcells.
    + apply IH.
      * intros j cell Hj. specialize (Hcells (S j) cell Hj).
        rewrite Nat.add_succ_r in Hcells. exact Hcells.
      * simpl in Hlen. lia.
Qed.

(** X1. In a printed table every row that has one cell per header is
    exactly as long as the separator line under the headers: the margin
    of two spaces and then the column widths. *)
Theorem table_rows_align_with_separator
    (headers : list string) (rows : list (list string)) (row : list string) :
  In row rows ->
  List.length row = List.length headers ->
  String.length (render_row row (col_widths headers rows))
  = String.length (separator_line headers (col_widths headers rows))
  /\ String.length (separator_line headers (col_widths headers rows))
     = 2 + list_sum (col_widths headers rows).
Proof.
  intros Hin Hlen.
  assert (Hw : List.length (col_widths headers rows) = List.length headers).
  { unfold col_widths, enumerate.
    rewrite length_map, length_combine, length_seq. lia. }
  assert (Hsep : String.length (separator_line headers (col_widths headers rows))
                 = 2 + list_sum (map snd (combine headers (col_widths headers rows)))).
  { unfold separator_line. rewrite length_separator_from. reflexivity. }
  split.
  - rewrite Hsep, render_row_cells, string_length_append, length_concat_cells.
    rewrite map_map. simpl String.length. f_equal.
    unfold col_widths, enumerate.
    apply (combine_widths_sum rows row Hin 0 headers row).
    + intros j cell Hj. exact Hj.
    + exact Hlen.
  - rewrite Hsep. f_equal.
    assert (G : forall (hs : list string) (ws : list nat),
               List.length ws = List.length hs ->
               map snd (combine hs ws) = ws).
    { induction hs as [|h hs IH]; intros [|x ws] E; simpl in *;
        try reflexivity; try discriminate.
      f_equal. apply IH. lia. }
    rewrite G by exact Hw. reflexivity.
Qed.

Lemma table_rows_align_with_separator_witness :
  String.length
    (render_row ["001"; "002"; "046d:c52b"; "Logitech, Inc. Unifying Receiver"]
       (col_widths ["Bus"; "Device"; "ID"; "Description"]
          [["001"; "002"; "046d:c52b"; "Logitech, Inc. Unifying Receiver"]]))
  = String.length
      (separator_line ["Bus"; "Device"; "ID"; "Description"]
         (col_widths ["Bus"; "Device"; "ID"; "Description"]
            [["001"; "002"; "046d:c52b"; "Logitech, Inc. Unifying Receiver"]])).
Proof.
  apply (table_rows_align_with_separator
           ["Bus"; "Device"; "ID"; "Description"]
           [["001"; "002"; "046d:c52b"; "Logitech, Inc. Unifying Receiver"]]
           ["001"; "002"; "046d:c52b"; "Logitech, Inc. Unifying Receiver"]).
  - simpl. left. reflexivity.
  - reflexivity.
Defined.

End TableAlignment.

(* ================================================================= *)
(** * Theorems: rows of the USB table *)

Section UsbRows.
Local Open Scope list_scope.

Lemma lsusb_step_consistent acc line :
  usb_rows_consistent acc -> usb_rows_consistent (lsusb_step acc line).
Proof.
  destruct acc as [devs rows]. intros (Hl & Hf & Hd). unfold lsusb_step.
  destruct (Py.truthy (Py.strip line)
            && negb (Py.contains "root hub" (Py.lower line)));
    [|repeat split; assumption].
  destruct (Py.split_max " " 6 line)
    as [|p0 [|p1 [|p2 [|p3 [|p4 [|p5 [|p6 [|p7 ps]]]]]]]];
    try (repeat split; assumption).
  unfold usb_rows_consistent in *. simpl in *.
  rewrite !length_app, map_app. simpl. repeat split.
  - lia.
  - apply Forall_app. split; [exact Hf | repeat constructor].
  - rewrite Hd. reflexivity.
Qed.

Lemma lsusb_fold_consistent lines : forall acc,
  usb_rows_consistent acc ->
  usb_rows_consistent (fold_left lsusb_step lines acc).
Proof.
  induction lines as [|l lines IH]; intros acc H; simpl; [exact H|].
  apply IH, lsusb_step_consistent, H.
Qed.

(** X2. Whatever [lsusb] prints, the USB table has one row per counted
    device, every row has exactly the four cells of the four headers, and
    the last cell is the device's description; a line that mentions a
    root hub, in any letter case, is never counted. *)
Theorem usb_table_rows_match_count (lines : list string) :
  let acc := fold_left lsusb_step lines ([], []) in
  List.length (fst acc) = List.length (snd acc)
  /\ Forall (fun row => List.length row = 4%nat) (snd acc)
  /\ fst acc = map (fun row => nth 3 row EmptyString) (snd acc)
  /\ forall acc0 line,
       Py.contains "root hub" (Py.lower line) = true ->
       lsusb_step acc0 line = acc0.
Proof.
  destruct (lsusb_fold_consistent lines ([], [])) as (H1 & H2 & H3).
  { repeat split. constructor. }
  repeat split; try assumption.
  intros [devs rows] line H. unfold lsusb_step. rewrite H.
  rewrite andb_false_r. reflexivity.
Qed.

End UsbRows.

(* ================================================================= *)
(** * Theorems: [int()] on a string of digits *)

Section IntOfDigits.

Lemma is_digit_not_space c : Py.is_digit c = true -> Py.is_space c = false.
Proof.
  unfold Py.is_digit, Py.is_space. intros H.
  apply andb_prop in H. destruct H as [H1 H2].
  apply Nat.leb_le in H1, H2.
  apply orb_false_intro; apply andb_false_intro2 || apply andb_false_intro1.
  - apply Nat.leb_gt. lia.
  - apply Nat.leb_gt. lia.
Qed.

Lemma rstrip_digits s : Py.all_digits s = true -> Py.rstrip s = s.
Proof.
  induction s as [|c s IH]; simpl; intros H; [reflexivity|].
  apply andb_prop in H. destruct H as [Hc Hs].
  rewrite (IH Hs). destruct s; [|reflexivity].
  rewrite (is_digit_not_space c Hc). reflexivity.
Qed.

Lemma strip_digits s : Py.all_digits s = true -> Py.strip s = s.
Proof.
  intros H. unfold Py.strip. rewrite (rstrip_digits s H).
  destruct s as [|c s]; [reflexivity|]. simpl in *.
  apply andb_prop in H. destruct H as [Hc _].
  rewrite (is_digit_not_space c Hc). reflexivity.
Qed.

Lemma digits_of_digits s : forall acc after_digit,
  Py.all_digits s = true ->
  (s <> EmptyString \/ after_digit = true) ->
  PyInt.digits s acc after_digit = Some (decimal_value s acc).
Proof.
  induction s as [|c s IH]; intros acc b H Hne; simpl.
  - destruct Hne as [Hne|Hb]; [contradiction | rewrite Hb; reflexivity].
  - simpl in H. apply andb_prop in H. destruct H as [Hc Hs].
    rewrite Hc. apply IH; [exact Hs | right; reflexivity].
Qed.

Lemma of_str_digits s :
  Py.isdigit s = true -> PyInt.of_str s = Some (decimal_value s 0).
Proof.
  unfold Py.isdigit. intros H. apply andb_prop in H. destruct H as [Ht Hd].
  unfold PyInt.of_str. rewrite (strip_digits s Hd).
  destruct s as [|c s]; [discriminate|].
  rewrite <- (digits_of_digits (String c s) 0 false Hd)
    by (left; discriminate).
  simpl in Hd. apply andb_prop in Hd. destruct Hd as [Hc _].
  destruct c as [[] [] [] [] [] [] [] []]; try discriminate Hc; reflexivity.
Qed.

Lemma decimal_value_nonneg s : forall acc,
  Py.all_digits s = true -> 0 <= acc -> 0 <= decimal_value s acc.
Proof.
  induction s as [|c s IH]; intros acc H Ha; cbn [decimal_value]; [exact Ha|].
  cbn [Py.all_digits] in H. apply andb_prop in H. destruct H as [Hc Hs].
  apply IH; [exact Hs|].
  unfold Py.is_digit in Hc. apply andb_prop in Hc. destruct Hc as [H1 H2].
  apply Nat.leb_le in H1, H2. unfold PyInt.digit_val. lia.
Qed.

End IntOfDigits.

(* ================================================================= *)
(** * Theorems: rows of the temperature table *)

Section ThermalRows.
Variable w : World.
Local Open Scope list_scope.



End ThermalRows.

(* ================================================================= *)
(** * Theorems: the memory probe *)

Section MemoryFacts.
Import PyFloat PyFloatFacts.

Lemma all_digits_span s : Py.all_digits (fst (Py.span_digits s)) = true.
Proof.
  induction s as [|c s IH]; [reflexivity|]. cbn [Py.span_digits].
  destruct (Py.is_digit c) eqn:D; [|reflexivity].
  destruct (Py.span_digits s) as [d r]. cbn [fst Py.all_digits] in *.
  rewrite D, IH. reflexivity.
Qed.

Lemma search_digits_isdigit s d :
  Py.search_digits s = Some d -> Py.isdigit d = true.
Proof.
  revert d. induction s as [|c s IH]; intros d; [discriminate|].
  cbn [Py.search_digits].
  destruct (Py.is_digit c) eqn:D; [|apply IH].
  intros H. injection H as <-. rewrite ?D.
  pose proof (all_digits_span s) as A.
  destruct (Py.span_digits s) as [d0 r]. cbn [fst] in *.
  unfold Py.isdigit. cbn [Py.truthy Py.all_digits]. rewrite D, A. reflexivity.
Qed.

Lemma Forall_set_item {V} (P : string * V -> Prop) k v (d : Dict.t V) :
  P (k, v) -> Forall P d -> Forall P (Dict.set_item k v d).
Proof.
  intros Hk. induction d as [|[k' v'] d IH]; intros H; cbn [Dict.set_item].
  - constructor; [exact Hk | constructor].
  - inversion H; subst. destruct (String.eqb k k'); constructor; auto.
Qed.

Lemma Forall_get {V} (P : string * V -> Prop) k v (d : Dict.t V) :
  Forall P d -> Dict.get k d = Some v -> exists k', P (k', v).
Proof.
  induction d as [|[k' v'] d IH]; intros H G; [discriminate|].
  inversion H; subst. cbn [Dict.get] in G.
  destruct (String.eqb k k').
  - inversion G; subst. exists k'. assumption.
  - apply IH; assumption.
Qed.

Lemma meminfo_line_nonneg mem_data line :
  Forall (fun kv => 0 <= snd kv) mem_data ->
  exists mem_data',
    meminfo_line mem_data line = Ok mem_data'
    /\ Forall (fun kv => 0 <= snd kv) mem_data'.
Proof.
  intros H. unfold meminfo_line.
  destruct (Py.contains_char ":" line); [|exists mem_data; auto].
  destruct (Py.split_once ":" line) as [key val].
  destruct (Py.search_digits val) as [digits|] eqn:S; [|exists mem_data; auto].
  apply search_digits_isdigit in S. unfold PyInt.int.
  rewrite (of_str_digits digits S). cbn [bind].
  eexists. split; [reflexivity|]. apply Forall_set_item; [|exact H].
  cbn [snd]. apply decimal_value_nonneg; [|lia].
  unfold Py.isdigit in S. apply andb_prop in S. apply S.
Qed.

Lemma meminfo_lines_nonneg lines : forall mem_data,
  Forall (fun kv => 0 <= snd kv) mem_data ->
  exists mem_data',
    meminfo_lines mem_data lines = Ok mem_data'
    /\ Forall (fun kv => 0 <= snd kv) mem_data'.
Proof.
  induction lines as [|line lines IH]; intros mem_data H;
    cbn [meminfo_lines].
  - exists mem_data. auto.
  - destruct (meminfo_line_nonneg mem_data line H) as (m1 & E & H1).
    rewrite E. cbn [bind]. apply IH, H1.
Qed.





Lemma kb_to_gb_returns n :
  Z.abs n < range_limit 20 -> exists a, kb_to_gb (PyInt n) = Ok (Fin a).
Proof.
  intros H. unfold kb_to_gb. change (1024 ^ 2) with (2 ^ 20).
  rewrite round_quotient_int; [|lia|exact H]. eexists. reflexivity.
Qed.





(** X6. When [/proc/meminfo] reports a [MemTotal] of zero together with
    a [MemAvailable], the memory probe raises [ZeroDivisionError]: its
    handler names [IOError] only. *)
Theorem memory_total_zero_raises
    (w : World) (meminfo : string) (mem_data : Dict.t Z) (available : Z) :
  open_read w "/proc/meminfo" = Some meminfo ->
  meminfo_lines [] (Py.split_char Py.LF meminfo) = Ok mem_data ->
  Dict.get "MemTotal" mem_data = Some 0 ->
  Dict.get "MemAvailable" mem_data = Some available ->
  available < range_limit 20 ->
  get_linux_memory_info w = Raise (ZeroDivisionError "division by zero").
Proof.
  intros Hopen Hparse Htot Hav Hmax.
  destruct (meminfo_lines_nonneg (Py.split_char Py.LF meminfo) [])
    as (m & Em & Hmin); [constructor|].
  rewrite Hparse in Em. injection Em as <-.
  destruct (Forall_get _ _ _ _ Hmin Hav) as [? Ba]. cbn [snd] in Ba.
  destruct (kb_to_gb_returns 0) as [gt Et]; [reflexivity|].
  destruct (kb_to_gb_returns available) as [ga Ea]; [lia|].
  destruct (kb_to_gb_returns (0 - available)) as [gu Eu]; [lia|].
  unfold get_linux_memory_info. rewrite Hopen, Hparse. cbn [bind].
  rewrite Htot, Hav, Et, Ea, Eu. cbn [bind]. reflexivity.
Qed.

Lemma memory_total_zero_raises_witness :
  get_linux_memory_info
    (with_file "/proc/meminfo"
       ("MemTotal: 0 kB" ++ String Py.LF "MemAvailable: 0 kB") bare_world)
  = Raise (ZeroDivisionError "division by zero").
Proof.
  apply (memory_total_zero_raises
           (with_file "/proc/meminfo"
              ("MemTotal: 0 kB" ++ String Py.LF "MemAvailable: 0 kB")
              bare_world)
           ("MemTotal: 0 kB" ++ String Py.LF "MemAvailable: 0 kB")
           [("MemTotal", 0); ("MemAvailable", 0)] 0).
  - reflexivity.
  - vm_compute. reflexivity.
  - reflexivity.
  - reflexivity.
  - reflexivity.
Defined.

End MemoryFacts.

(* ================================================================= *)
(** * Theorems: how a run ends *)

Section RunEnds.
Variable w : World.
Variable self : SystemInfo.
Variable bodies : ProbeBodies.
Local Open Scope list_scope.

Lemma banner_run d :
  exists out, banner w self d = (Ok tt, d, out)
              /\ (output_json self = false -> out = firstn 4 (console_opening w))
              /\ (output_json self = true -> out = []).
Proof.
  unfold banner. destruct (output_json self).
  - exists []. split; [reflexivity|]. split; [discriminate | reflexivity].
  - eexists. split; [reflexivity|]. split; [reflexivity | discriminate].
Qed.

Lemma generate_output_run d :
  exists out, generate_output w self d = (Ok tt, d, out)
              /\ (output_json self = false -> out = console_footer).
Proof.
  unfold generate_output. destruct (output_json self).
  - eexists. split; [reflexivity | discriminate].
  - eexists. split; [reflexivity | reflexivity].
Qed.

Lemma checks_run d :
  exists head,
    banner w self d = (Ok tt, d, head)
    /\ match gather w self bodies d with
       | (Ok _, d', out) =>
           exists tail,
             generate_output w self d' = (Ok tt, d', tail)
             /\ checks w self bodies d = (Ok tt, d', head ++ out ++ tail)
       | (Raise e, d', out) =>
           checks w self bodies d = (Raise e, d', head ++ out)
       end.
Proof.
  destruct (banner_run d) as (head & Eb & _). exists head.
  split; [exact Eb|]. unfold checks, mbind. rewrite Eb.
  destruct (gather w self bodies d) as [[[u|e] d'] out].
  - destruct (generate_output_run d') as (tail & Eg & _).
    exists tail. split; [exact Eg|]. rewrite Eg. reflexivity.
  - reflexivity.
Qed.

(** X7. When a probe raises an exception of class [Exception], the run
    prints what was printed so far and then the one line
    [An error occurred: <text of the exception>], and the process exits
    with status 1; in JSON mode, with probes that print nothing there,
    that line is the whole output: no JSON document is emitted. *)
Theorem probe_error_exit_and_output (e : exn) :
  is_Exception e = true ->
  result_of (gather w self bodies []) = Raise e ->
  fst (main w self bodies) = 1
  /\ snd (main w self bodies)
     = output_of (checks w self bodies []) ++ [error_notice e]
  /\ (output_json self = true -> quiet_bodies bodies ->
      snd (main w self bodies) = [error_notice e]).
Proof.
  intros He Hg.
  destruct (checks_run []) as (head & Eb & Hc).
  destruct (gather w self bodies []) as [[r d'] out] eqn:G.
  unfold result_of in Hg. cbn [fst] in Hg. subst r.
  assert (R : run_all_checks w self bodies []
              = (Raise (SystemExit 1), d', (head ++ out) ++ [error_notice e])).
  { unfold run_all_checks, try_except. rewrite Hc.
    destruct e; try discriminate He; reflexivity. }
  unfold main. rewrite R. cbn [result_of output_of fst snd exit_status].
  split; [reflexivity|]. split.
  - rewrite Hc. reflexivity.
  - intros J Q. destruct (banner_run []) as (head' & Eb' & _ & Hj).
    rewrite Eb in Eb'. injection Eb' as <-. rewrite (Hj J).
    pose proof (silent_gather w self bodies J Q []) as S.
    rewrite G in S. unfold output_of in S. cbn [snd] in S. rewrite S.
    reflexivity.
Qed.

(** X8. When no probe raises, the process exits with status 0, and a
    console report is the four header lines, then what the probes
    printed, then the two footer lines. *)
Theorem completed_run_exit_and_footer :
  result_of (gather w self bodies []) = Ok tt ->
  fst (main w self bodies) = 0
  /\ (output_json self = false ->
      snd (main w self bodies)
      = firstn 4 (console_opening w)
        ++ output_of (gather w self bodies []) ++ console_footer).
Proof.
  intros Hg.
  destruct (checks_run []) as (head & Eb & Hc).
  destruct (gather w self bodies []) as [[r d'] out] eqn:G.
  unfold result_of in Hg. cbn [fst] in Hg. subst r.
  destruct Hc as (tail & Eg & Ec).
  assert (R : run_all_checks w self bodies [] = (Ok tt, d', head ++ out ++ tail)).
  { unfold run_all_checks, try_except. rewrite Ec. reflexivity. }
  unfold main. rewrite R. cbn [result_of output_of fst snd exit_status].
  split; [reflexivity|]. intros J.
  destruct (banner_run []) as (head' & Eb' & Hh & _).
  rewrite Eb in Eb'. injection Eb' as <-. rewrite (Hh J).
  destruct (generate_output_run d') as (tail' & Eg' & Ht).
  rewrite Eg in Eg'. injection Eg' as <-. rewrite (Ht J). reflexivity.
Qed.

End RunEnds.

Lemma probe_error_exit_and_output_witness :
  fst (main denied_world json empty_bodies) = 1
  /\ snd (main denied_world json empty_bodies)
     = (output_of (checks denied_world json empty_bodies [])
        ++ [error_notice (OSError "[Errno 13] Permission denied")])%list
  /\ (output_json json = true -> quiet_bodies empty_bodies ->
      snd (main denied_world json empty_bodies)
      = [error_notice (OSError "[Errno 13] Permission denied")]).
Proof.
  apply (probe_error_exit_and_output denied_world json empty_bodies
           (OSError "[Errno 13] Permission denied")).
  - reflexivity.
  - vm_compute. reflexivity.
Defined.

Lemma completed_run_exit_and_footer_witness :
  fst (main bare_world console empty_bodies) = 0
  /\ (output_json console = false ->
      snd (main bare_world console empty_bodies)
      = (firstn 4 (console_opening bare_world)
         ++ output_of (gather bare_world console empty_bodies [])
         ++ console_footer)%list).
Proof.
  apply (completed_run_exit_and_footer bare_world console empty_bodies).
  vm_compute. reflexivity.
Defined.

(* ================================================================= *)
(** * Theorems: the Sections of the report *)

Section SectionFacts.
Variable self : SystemInfo.

Lemma contains_set_item_same {V} k (v : V) d :
  Dict.contains k (Dict.set_item k v d) = true.
Proof. unfold Dict.contains. rewrite get_set_item_same. reflexivity. Qed.

Lemma contains_set_item_kept {V} name k (v : V) d :
  Dict.contains name d = true ->
  Dict.contains name (Dict.set_item k v d) = true.
Proof.
  intros H. destruct (String.eqb_spec name k) as [->|N].
  - apply contains_set_item_same.
  - unfold Dict.contains in *. rewrite get_set_item_other by exact N. exact H.
Qed.

Lemma data_of_bind {A B} (c : M A) (k : A -> M B) d :
  data_of (mbind c k d)
  = match result_of (c d) with
    | Ok a => data_of (k a (data_of (c d)))
    | Raise _ => data_of (c d)
    end.
Proof.
  unfold mbind, data_of, result_of.
  destruct (c d) as [[[a|e] d'] out]; cbn [fst snd]; [|reflexivity].
  destruct (k a d') as [[r d''] out']. reflexivity.
Qed.

Lemma result_of_bind {A B} (c : M A) (k : A -> M B) d b :
  result_of (mbind c k d) = Ok b ->
  exists a, result_of (c d) = Ok a
            /\ result_of (k a (data_of (c d))) = Ok b.
Proof.
  unfold mbind, data_of, result_of.
  destruct (c d) as [[[a|e] d'] out]; cbn [fst snd]; [|discriminate].
  intros H. exists a. split; [reflexivity|].
  destruct (k a d') as [[r d''] out']. exact H.
Qed.

Lemma touches_ret {A} name (a : A) : touches_only name (ret a).
Proof. intros d k _. reflexivity. Qed.

Lemma touches_lift {A} name (r : result A) : touches_only name (lift r).
Proof. intros d k _. reflexivity. Qed.

Lemma touches_store name info : touches_only name (store name info).
Proof. intros d k N. apply get_set_item_other, N. Qed.

Lemma touches_bind {A B} name (c : M A) (k : A -> M B) :
  touches_only name c -> (forall a, touches_only name (k a)) ->
  touches_only name (mbind c k).
Proof.
  intros Hc Hk d key N. rewrite data_of_bind.
  destruct (result_of (c d)) as [a|e].
  - rewrite (Hk a _ key N). apply Hc, N.
  - apply Hc, N.
Qed.

Lemma touches_prints_only name (c : M unit) :
  prints_only self c -> touches_only name c.
Proof. intros H d k _. destruct (H d) as (out & E & _). rewrite E. reflexivity. Qed.

Lemma keeps_ret {A} (a : A) : keeps_sections (ret a).
Proof. intros d name H. exact H. Qed.

Lemma keeps_lift {A} (r : result A) : keeps_sections (lift r).
Proof. intros d name H. exact H. Qed.

Lemma keeps_store k info : keeps_sections (store k info).
Proof. intros d name H. apply contains_set_item_kept, H. Qed.

Lemma keeps_bind {A B} (c : M A) (k : A -> M B) :
  keeps_sections c -> (forall a, keeps_sections (k a)) ->
  keeps_sections (mbind c k).
Proof.
  intros Hc Hk d name H. rewrite data_of_bind.
  destruct (result_of (c d)) as [a|e].
  - apply Hk, Hc, H.
  - apply Hc, H.
Qed.

Lemma keeps_prints_only (c : M unit) : prints_only self c -> keeps_sections c.
Proof.
  intros H d name C. destruct (H d) as (out & E & _). rewrite E. exact C.
Qed.

Lemma sets_store name info : sets_section name (store name info).
Proof. intros d a _. apply contains_set_item_same. Qed.

Lemma sets_bind_later {A B} name (c : M A) (k : A -> M B) :
  (forall a, sets_section name (k a)) -> sets_section name (mbind c k).
Proof.
  intros Hk d b R. destruct (result_of_bind c k d b R) as (a & Ea & Eb).
  rewrite data_of_bind, Ea. apply (Hk a _ b Eb).
Qed.

Lemma sets_bind_first {A B} name (c : M A) (k : A -> M B) :
  sets_section name c -> (forall a, keeps_sections (k a)) ->
  sets_section name (mbind c k).
Proof.
  intros Hc Hk d b R. destruct (result_of_bind c k d b R) as (a & Ea & Eb).
  rewrite data_of_bind, Ea. apply Hk, (Hc d a Ea).
Qed.

End SectionFacts.

Ltac touches_step self :=
  match goal with
  | |- touches_only _ (mbind _ _) => apply touches_bind; [|intros ?]
  | |- touches_only _ (ret _) => apply touches_ret
  | |- touches_only _ (lift _) => apply touches_lift
  | |- touches_only _ (store _ _) => apply touches_store
  | |- touches_only _ (print_section _ _) =>
      apply (touches_prints_only self), prints_only_print_section
  | |- touches_only _ (print_info _ _ _) =>
      apply (touches_prints_only self), prints_only_print_info
  | |- touches_only _ (print_fields _ _) =>
      apply (touches_prints_only self), prints_only_print_fields
  | |- touches_only _ (print_table _ _ _ _) =>
      apply (touches_prints_only self), prints_only_print_table
  | |- touches_only _ (match ?x with _ => _ end) => destruct x
  end.

Ltac keeps_step self :=
  match goal with
  | |- keeps_sections (mbind _ _) => apply keeps_bind; [|intros ?]
  | |- keeps_sections (ret _) => apply keeps_ret
  | |- keeps_sections (lift _) => apply keeps_lift
  | |- keeps_sections (store _ _) => apply keeps_store
  | |- keeps_sections (print_section _ _) =>
      apply (keeps_prints_only self), prints_only_print_section
  | |- keeps_sections (print_info _ _ _) =>
      apply (keeps_prints_only self), prints_only_print_info
  | |- keeps_sections (print_fields _ _) =>
      apply (keeps_prints_only self), prints_only_print_fields
  | |- keeps_sections (print_table _ _ _ _) =>
      apply (keeps_prints_only self), prints_only_print_table
  | |- keeps_sections (match ?x with _ => _ end) => destruct x
  end.

Section ReportSections.
Variable w : World.
Variable self : SystemInfo.

(** X9. Each of the hardware, USB, power and temperature probes leaves
    every Section of the report but its own exactly as it found it,
    whether it returns or raises. *)
Theorem probes_touch_own_section :
  touches_only "hardware" (get_hardware_info w self)
  /\ touches_only "usb" (get_usb_info w self)
  /\ touches_only "power" (get_power_info w self)
  /\ touches_only "temperature" (get_temperature_info w self).
Proof.
  repeat split.
  - unfold get_hardware_info. repeat touches_step self.
  - unfold get_usb_info. repeat touches_step self.
  - unfold get_power_info. repeat touches_step self.
  - unfold get_temperature_info, sensors_readings. repeat touches_step self.
Qed.

Lemma keeps_get_hardware_info : keeps_sections (get_hardware_info w self).
Proof. unfold get_hardware_info. repeat keeps_step self. Qed.

Lemma keeps_get_usb_info : keeps_sections (get_usb_info w self).
Proof. unfold get_usb_info. repeat keeps_step self. Qed.

Lemma keeps_get_power_info : keeps_sections (get_power_info w self).
Proof. unfold get_power_info. repeat keeps_step self. Qed.

Lemma keeps_get_temperature_info :
  keeps_sections (get_temperature_info w self).
Proof.
  unfold get_temperature_info, sensors_readings. repeat keeps_step self.
Qed.

Lemma sets_get_hardware_info :
  sets_section "hardware" (get_hardware_info w self).
Proof.
  unfold get_hardware_info. apply sets_bind_later. intros _.
  apply sets_bind_first; [apply sets_store|].
  intros _. repeat keeps_step self.
Qed.

Lemma sets_get_usb_info : sets_section "usb" (get_usb_info w self).
Proof.
  unfold get_usb_info. do 3 (apply sets_bind_later; intros ?).
  apply sets_bind_first; [apply sets_store|].
  intros _. repeat keeps_step self.
Qed.

Lemma sets_get_power_info : sets_section "power" (get_power_info w self).
Proof.
  unfold get_power_info. apply sets_bind_later. intros _.
  apply sets_bind_first; [apply sets_store|].
  intros _. repeat keeps_step self.
Qed.

Lemma sets_get_temperature_info :
  sets_section "temperature" (get_temperature_info w self).
Proof.
  unfold get_temperature_info. do 2 (apply sets_bind_later; intros ?).
  destruct a0 as [info temp_rows].
  apply sets_bind_later; intros [zones rows].
  apply sets_bind_later; intros ?.
  apply sets_bind_first; [apply sets_store|].
  intros _. repeat keeps_step self.
Qed.

End ReportSections.

Section CompletedReport.
Variable w : World.
Variable self : SystemInfo.
Variable bodies : ProbeBodies.
Hypothesis K : bodies_keep_sections bodies.

Lemma keeps_titled title (body : M unit) :
  keeps_sections body ->
  keeps_sections (mbind (print_section self title) (fun _ => body)).
Proof.
  intros H. apply keeps_bind; [|intros _; exact H].
  apply (keeps_prints_only self), prints_only_print_section.
Qed.

Lemma keeps_unembedded :
  keeps_sections (get_system_info self bodies)
  /\ keeps_sections (get_cpu_info self bodies)
  /\ keeps_sections (get_memory_info self bodies)
  /\ keeps_sections (get_graphics_info self bodies)
  /\ keeps_sections (get_audio_info self bodies)
  /\ keeps_sections (get_network_info self bodies)
  /\ keeps_sections (get_storage_info self bodies).
Proof.
  destruct K as (K1 & K2 & K3 & K4 & K5 & K6 & K7).
  repeat split; apply keeps_titled; assumption.
Qed.

Lemma gather_sets name :
  In name ["hardware"; "usb"; "power"; "temperature"] ->
  sets_section name (gather w self bodies).
Proof.
  destruct keeps_unembedded as (K1 & K2 & K3 & K4 & K5 & K6 & K7).
  pose proof (keeps_get_hardware_info w self) as E1.
  pose proof (keeps_get_usb_info w self) as E2.
  pose proof (keeps_get_power_info w self) as E3.
  pose proof (keeps_get_temperature_info w self) as E4.
  assert (R : forall u : unit, keeps_sections (@ret unit u))
    by (intros u; apply keeps_ret).
  intros [<-|[<-|[<-|[<-|[]]]]]; unfold gather.
  - apply sets_bind_later; intros _.
    apply sets_bind_first; [apply sets_get_hardware_info|]. intros _.
    repeat (apply keeps_bind; [assumption | intros ?]). apply R.
  - do 8 (apply sets_bind_later; intros ?).
    apply sets_bind_first; [apply sets_get_usb_info|]. intros _.
    repeat (apply keeps_bind; [assumption | intros ?]). apply R.
  - do 9 (apply sets_bind_later; intros ?).
    apply sets_bind_first; [apply sets_get_power_info|]. intros _.
    repeat (apply keeps_bind; [assumption | intros ?]). apply R.
  - do 10 (apply sets_bind_later; intros ?).
    apply sets_bind_first; [apply sets_get_temperature_info|]. intros _.
    apply R.
Qed.

(** X10. When no probe body removes a Section and the eleven probes all
    return, the report holds the Sections [hardware], [usb], [power] and
    [temperature], whatever the machine is like. *)
Theorem completed_run_has_sections (d : Dict.t value) (name : string) :
  result_of (gather w self bodies d) = Ok tt ->
  In name ["hardware"; "usb"; "power"; "temperature"] ->
  Dict.contains name (data_of (gather w self bodies d)) = true.
Proof. intros R H. exact (gather_sets name H d tt R). Qed.

End CompletedReport.

Lemma empty_bodies_keep_sections : bodies_keep_sections empty_bodies.
Proof. repeat split; apply keeps_store. Qed.

Lemma completed_run_has_sections_witness :
  Dict.contains "power" (data_of (gather bare_world json empty_bodies [])) = true.
Proof.
  apply (completed_run_has_sections bare_world json empty_bodies
           empty_bodies_keep_sections [] "power").
  - vm_compute. reflexivity.
  - simpl. tauto.
Defined.

(* ================================================================= *)
(** * Theorems: what the executor hands out is stripped *)

Section StripFacts.








End StripFacts.

(* ================================================================= *)
(** * Theorems: adapters, batteries and thermal zones *)

Section SysfsFacts.
Variable w : World.

Lemma adapter_step_values info name :
  Forall (fun kv => snd kv = "Connected" \/ snd kv = "Disconnected") info ->
  Forall (fun kv => snd kv = "Connected" \/ snd kv = "Disconnected")
         (adapter_step w info name).
Proof.
  intros H. unfold adapter_step.
  destruct (safe_read_file w _) as [o|]; [|exact H].
  destruct (Py.truthy o); [|exact H].
  apply Forall_set_item; [|exact H]. cbn [snd].
  destruct (String.eqb o "1"); [left | right]; reflexivity.
Qed.

(** X12. Every field the AC adapter probe reports holds either
    [Connected] or [Disconnected], whatever the [online] files hold. *)
Theorem adapter_status_values :
  Forall (fun kv => snd kv = "Connected" \/ snd kv = "Disconnected")
         (get_ac_adapter_info w).
Proof.
  unfold get_ac_adapter_info.
  assert (G : forall names info,
             Forall (fun kv => snd kv = "Connected" \/ snd kv = "Disconnected")
                    info ->
             Forall (fun kv => snd kv = "Connected" \/ snd kv = "Disconnected")
                    (fold_left (adapter_step w) names info)).
  { induction names as [|n names IH]; intros info H; cbn [fold_left].
    - exact H.
    - apply IH, adapter_step_values, H. }
  apply G. constructor.
Qed.

Lemma glob_star s : glob_match [PStar] s = true.
Proof.
  induction s as [|c s IH]; [reflexivity|].
  change (glob_match [PStar] (String c s))
    with (glob_match [] (String c s) || glob_match [PStar] s).
  rewrite IH. apply orb_true_r.
Qed.

Lemma glob_prefix p : forall s,
  glob_match (literal p ++ [PStar])%list s = Py.startswith p s.
Proof.
  unfold Py.startswith.
  induction p as [|c p IH]; intros s.
  - cbn [literal app]. rewrite glob_star. destruct s; reflexivity.
  - cbn [literal app glob_match]. destruct s as [|c' s]; [reflexivity|].
    cbn [String.prefix]. rewrite IH.
    destruct (Ascii.eqb_spec c c') as [->|N].
    + destruct (ascii_dec c' c'); [reflexivity | contradiction].
    + destruct (ascii_dec c c'); [contradiction | reflexivity].
Qed.

(** X13. The batteries the power probe looks at are exactly the entries
    of the power-supply directory whose names begin with [BAT], and the
    thermal zones the temperature probe scans are exactly the entries of
    the thermal directory whose names begin with [thermal_zone]; a
    directory that does not exist has none. *)
Theorem probed_entries_by_prefix (name : string) :
  (In name (batteries w) <->
   path_exists w power_supply_path = true
   /\ In name (scandir w power_supply_path)
   /\ Py.startswith "BAT" name = true)
  /\ (In name (thermal_zone_names w) <->
      path_exists w thermal_path = true
      /\ In name (scandir w thermal_path)
      /\ Py.startswith "thermal_zone" name = true).
Proof.
  split.
  - unfold batteries, glob.
    destruct (path_exists w power_supply_path).
    + rewrite filter_In, glob_prefix. tauto.
    + split; [intros [] | intros [H _]; discriminate].
  - unfold thermal_zone_names, glob.
    destruct (path_exists w thermal_path).
    + rewrite filter_In, glob_prefix. tauto.
    + split; [intros [] | intros [H _]; discriminate].
Qed.

End SysfsFacts.

(* ================================================================= *)
(** * Theorems: the lines of a printed table *)

Section TableLines.
Variable self : SystemInfo.
Local Open Scope list_scope.




End TableLines.

(* ================================================================= *)
(** * Theorems: display server and connectivity *)

Section SessionFacts.
Variable w : World.
Local Open Scope list_scope.

Lemma first_running_detection names fallback : forall found,
  first_running w names fallback = Ok found ->
  detection w names fallback found.
Proof.
  induction names as [|name names IH]; intros found; cbn [first_running].
  - intros H. injection H as <-. right. split; [reflexivity | constructor].
  - destruct (run_command w (CmdLine ("pgrep -x " ++ name)) true)
      as [[[out err] rc]|e] eqn:R; cbn [bind]; [|discriminate].
    destruct (rc =? 0) eqn:Z.
    + intros H. injection H as <-. apply Z.eqb_eq in Z. subst rc.
      left. exists [], names. split; [reflexivity|].
      split; [constructor | exists out, err; exact R].
    + intros H. apply Z.eqb_neq in Z.
      assert (F : command_fails w ("pgrep -x " ++ name))
        by (exists out, err, rc; split; assumption).
      destruct (IH found H) as [(before & after & E & Hb & Hs) | [E Hall]].
      * left. exists (name :: before), after. rewrite E.
        split; [reflexivity|]. split; [constructor; assumption | exact Hs].
      * right. split; [exact E | constructor; assumption].
Qed.

Lemma first_running_raises names fallback e :
  first_running w names fallback = Raise e -> is_Exception e = false.
Proof.
  induction names as [|name names IH]; cbn [first_running]; [discriminate|].
  destruct (run_command w (CmdLine ("pgrep -x " ++ name)) true)
    as [[[out err] rc]|e'] eqn:R; cbn [bind].
  - destruct (rc =? 0); [discriminate | exact IH].
  - intros H. injection H as <-.
    apply (run_command_raises_only_base _ _ _ _ R).
Qed.

Lemma detection_truthy names fallback found :
  Forall (fun name => Py.truthy name = true) names ->
  Py.truthy fallback = true ->
  detection w names fallback found -> Py.truthy found = true.
Proof.
  intros Hn Hf [(before & after & E & _) | [-> _]]; [|exact Hf].
  rewrite Forall_forall in Hn. apply Hn. rewrite E.
  apply in_or_app. right. left. reflexivity.
Qed.

(** X15. The compositor that [detect_wayland_compositor] returns is the
    first of its seven candidates that [pgrep -x] finds running, every
    candidate before it having been tried without success, or the text
    [Unknown Wayland Compositor] when none runs; the same holds for
    [detect_x11_window_manager] with its candidates and [Unknown WM].
    What they return is never empty, and they raise nothing of class
    [Exception]. *)
Theorem detections_report_first_running :
  (forall found,
      detect_wayland_compositor w = Ok found ->
      detection w compositors "Unknown Wayland Compositor" found
      /\ Py.truthy found = true)
  /\ (forall found,
        detect_x11_window_manager w = Ok found ->
        detection w wms "Unknown WM" found /\ Py.truthy found = true)
  /\ (forall e,
        detect_wayland_compositor w = Raise e
        \/ detect_x11_window_manager w = Raise e ->
        is_Exception e = false).
Proof.
  split; [|split].
  - intros found H. apply first_running_detection in H. split; [exact H|].
    apply (detection_truthy compositors "Unknown Wayland Compositor" found);
      [|reflexivity|exact H].
    repeat constructor.
  - intros found H. apply first_running_detection in H. split; [exact H|].
    apply (detection_truthy wms "Unknown WM" found); [|reflexivity|exact H].
    repeat constructor.
  - intros e [H|H]; apply (first_running_raises _ _ _ H).
Qed.

Section DisplayServer.
Variable getenv : string -> option string.

(** X16. When [get_display_server_info] returns, its result holds
    [session_type] and a [display_server] that is [Wayland], [X11] or
    [Console/TTY]; a [compositor] is reported exactly for Wayland and a
    [window_manager] exactly for X11; and a set [WAYLAND_DISPLAY] makes
    the display server Wayland whatever [DISPLAY] holds. *)
Theorem display_server_fields (info : Dict.t string) :
  get_display_server_info w getenv = Ok info ->
  Dict.contains "session_type" info = true
  /\ (exists server,
         Dict.get "display_server" info = Some server
         /\ In server ["Wayland"; "X11"; "Console/TTY"]
         /\ (Dict.contains "compositor" info = true <-> server = "Wayland")
         /\ (Dict.contains "window_manager" info = true <-> server = "X11"))
  /\ (env_set getenv "WAYLAND_DISPLAY" = true ->
      Dict.get "display_server" info = Some "Wayland").
Proof.
  unfold get_display_server_info.
  set (session_type := match getenv "XDG_SESSION_TYPE" with
                       | Some v => v
                       | None => "Unknown"
                       end).
  destruct (env_set getenv "WAYLAND_DISPLAY" || String.eqb session_type "wayland")
    eqn:W.
  - destruct (detect_wayland_compositor w) as [c|e] eqn:D; cbn [bind];
      [|discriminate].
    apply first_running_detection in D.
    rewrite (detection_truthy compositors "Unknown Wayland Compositor" c
               ltac:(repeat constructor) eq_refl D).
    intros H. injection H as <-. split; [reflexivity|]. split.
    + exists "Wayland". split; [reflexivity|]. split; [simpl; tauto|].
      split; split; intros; try reflexivity; discriminate.
    + intros _. reflexivity.
  - apply orb_false_elim in W. destruct W as [W _]. rewrite W.
    destruct (env_set getenv "DISPLAY").
    + destruct (detect_x11_window_manager w) as [m|e] eqn:D; cbn [bind];
        [|discriminate].
      apply first_running_detection in D.
      rewrite (detection_truthy wms "Unknown WM" m
                 ltac:(repeat constructor) eq_refl D).
      intros H. injection H as <-. split; [reflexivity|]. split.
      * exists "X11". split; [reflexivity|]. split; [simpl; tauto|].
        split; split; intros; try reflexivity; discriminate.
      * discriminate.
    + intros H. injection H as <-. split; [reflexivity|]. split.
      * exists "Console/TTY". split; [reflexivity|]. split; [simpl; tauto|].
        split; split; intros; discriminate.
      * discriminate.
Qed.

End DisplayServer.

Lemma ping_each_verdict hosts : forall verdict,
  ping_each w hosts = Ok verdict ->
  (verdict = "Connected"
   /\ exists host, In host hosts
                   /\ command_succeeds w ("ping -c 1 -W 2 " ++ host))
  \/ (verdict = "No connectivity"
      /\ Forall (fun host => command_fails w ("ping -c 1 -W 2 " ++ host))
                hosts).
Proof.
  induction hosts as [|host hosts IH]; intros verdict; cbn [ping_each].
  - intros H. injection H as <-. right. split; [reflexivity | constructor].
  - destruct (run_command w (CmdLine ("ping -c 1 -W 2 " ++ host)) true)
      as [[[out err] rc]|e] eqn:R; cbn [bind]; [|discriminate].
    destruct (rc =? 0) eqn:Z.
    + intros H. injection H as <-. apply Z.eqb_eq in Z. subst rc.
      left. split; [reflexivity|]. exists host.
      split; [left; reflexivity | exists out, err; exact R].
    + intros H. apply Z.eqb_neq in Z.
      destruct (IH verdict H) as [[E (h & Hin & Hs)] | [E Hall]].
      * left. split; [exact E|]. exists h. split; [right; exact Hin | exact Hs].
      * right. split; [exact E|]. constructor; [|exact Hall].
        exists out, err, rc. split; assumption.
Qed.

(** X17. [test_connectivity] answers [Connected] only when the ping of
    one of its two hosts ended with status 0, and [No connectivity] only
    when both pings were tried and failed; it gives no other answer, so
    the answer is never empty. *)
Theorem connectivity_verdict (verdict : string) :
  test_connectivity w = Ok verdict ->
  (verdict = "Connected"
   /\ exists host, In host test_hosts
                   /\ command_succeeds w ("ping -c 1 -W 2 " ++ host))
  \/ (verdict = "No connectivity"
      /\ Forall (fun host => command_fails w ("ping -c 1 -W 2 " ++ host))
                test_hosts).
Proof. apply ping_each_verdict. Qed.

End SessionFacts.

Lemma display_server_fields_witness :
  let info := [("session_type", "Unknown"); ("display_server", "Wayland");
               ("compositor", "Unknown Wayland Compositor")] in
  Dict.contains "session_type" info = true
  /\ (exists server,
         Dict.get "display_server" info = Some server
         /\ In server ["Wayland"; "X11"; "Console/TTY"]
         /\ (Dict.contains "compositor" info = true <-> server = "Wayland")
         /\ (Dict.contains "window_manager" info = true <-> server = "X11"))
  /\ (env_set wayland_env "WAYLAND_DISPLAY" = true ->
      Dict.get "display_server" info = Some "Wayland").
Proof.
  apply (display_server_fields bare_world wayland_env
           [("session_type", "Unknown"); ("display_server", "Wayland");
            ("compositor", "Unknown Wayland Compositor")]).
  vm_compute. reflexivity.
Defined.

Lemma connectivity_verdict_witness :
  ("No connectivity" = "Connected"
   /\ exists host, In host test_hosts
                   /\ command_succeeds bare_world ("ping -c 1 -W 2 " ++ host))
  \/ ("No connectivity" = "No connectivity"
      /\ Forall (fun host =>
                   command_fails bare_world ("ping -c 1 -W 2 " ++ host))
                test_hosts).
Proof.
  apply (connectivity_verdict bare_world "No connectivity").
  vm_compute. reflexivity.
Defined.

(* ================================================================= *)
(** * Theorems: devices listed by [lspci] *)

Section PciFacts.
Local Open Scope list_scope.

Lemma split_char_nonempty sep s : Py.split_char sep s <> [].
Proof.
  destruct s as [|c s]; cbn [Py.split_char]; [discriminate|].
  destruct (Ascii.eqb c sep); [discriminate|].
  destruct (Py.split_char sep s); discriminate.
Qed.

Lemma split_char_no_sep sep a :
  Py.contains_char sep a = false -> Py.split_char sep a = [a].
Proof.
  induction a as [|c a IH]; [reflexivity|].
  cbn [Py.contains_char Py.split_char]. intros H.
  apply orb_false_elim in H. destruct H as [H1 H2].
  rewrite Ascii.eqb_sym, H1, (IH H2). reflexivity.
Qed.

Lemma split_char_app sep a b :
  Py.contains_char sep a = false ->
  Py.split_char sep (a ++ String sep b)%string = a :: Py.split_char sep b.
Proof.
  induction a as [|c a IH].
  - intros _. cbn [append Py.split_char]. rewrite Ascii.eqb_refl. reflexivity.
  - cbn [Py.contains_char append Py.split_char]. intros H.
    apply orb_false_elim in H. destruct H as [H1 H2].
    rewrite Ascii.eqb_sym, H1, (IH H2). reflexivity.
Qed.

Lemma concat_cons_char sep c first rest :
  String.concat sep (String c first :: rest)
  = String c (String.concat sep (first :: rest)).
Proof. destruct rest; reflexivity. Qed.

Lemma join_split sep s :
  Py.join (String sep EmptyString) (Py.split_char sep s) = s.
Proof.
  unfold Py.join. induction s as [|c s IH]; [reflexivity|].
  cbn [Py.split_char]. destruct (Ascii.eqb_spec c sep) as [->|N].
  - destruct (Py.split_char sep s) as [|x xs] eqn:E;
      [exfalso; exact (split_char_nonempty _ _ E)|].
    change (String.concat (String sep "") ("" :: x :: xs))
      with (String sep (String.concat (String sep "") (x :: xs))).
    rewrite IH. reflexivity.
  - destruct (Py.split_char sep s) as [|x xs] eqn:E;
      [exfalso; exact (split_char_nonempty _ _ E)|].
    rewrite concat_cons_char, IH. reflexivity.
Qed.

(** X18. The description taken from a line of [lspci] is everything
    after the second colon, stripped: colons inside the description are
    kept.  A line with fewer than two colons has the empty description. *)
Theorem pci_description_after_second_colon (slot class rest : string) :
  Py.contains_char ":" slot = false ->
  Py.contains_char ":" class = false ->
  pci_description (slot ++ ":" ++ class ++ ":" ++ rest) = Py.strip rest
  /\ pci_description (slot ++ ":" ++ class) = ""
  /\ pci_description class = "".
Proof.
  intros Hs Hc. unfold pci_description.
  change (slot ++ ":" ++ class ++ ":" ++ rest)%string
    with (slot ++ String ":" (class ++ String ":" rest))%string.
  change (slot ++ ":" ++ class)%string with (slot ++ String ":" class)%string.
  rewrite !(split_char_app ":" slot) by exact Hs.
  rewrite (split_char_app ":" class) by exact Hc.
  rewrite (split_char_no_sep ":" class) by exact Hc.
  cbn [skipn]. rewrite (join_split ":" rest). repeat split.
Qed.

Lemma append_inj_l p a b : (p ++ a = p ++ b)%string -> a = b.
Proof.
  induction p as [|c p IH]; cbn [append]; intros H; [exact H|].
  injection H as H. exact (IH H).
Qed.

Lemma to_int_not_nil z :
  Z.to_int z <> Decimal.Pos Decimal.Nil
  /\ Z.to_int z <> Decimal.Neg Decimal.Nil.
Proof.
  pose proof (DecimalZ.to_of (Z.to_int z)) as H.
  rewrite DecimalZ.of_to in H.
  split; intros E; rewrite E in H; vm_compute in H; discriminate H.
Qed.

Lemma str_of_Z_inj a b : Py.str_of_Z a = Py.str_of_Z b -> a = b.
Proof.
  unfold Py.str_of_Z. intros H. apply DecimalZ.to_int_inj.
  assert (E : Some (Z.to_int a) = Some (Z.to_int b)).
  { rewrite <- (NilZero.isi (Z.to_int a)) by apply to_int_not_nil.
    rewrite <- (NilZero.isi (Z.to_int b)) by apply to_int_not_nil.
    rewrite H. reflexivity. }
  injection E as E. exact E.
Qed.

Lemma numbered_key_inj numbered i j :
  numbered_key numbered i = numbered_key numbered j -> i = j.
Proof.
  unfold numbered_key. intros H.
  apply append_inj_l, str_of_Z_inj in H. lia.
Qed.

Lemma map_fst_combine_seq {A} (xs : list A) : forall start,
  map fst (combine (seq start (List.length xs)) xs)
  = seq start (List.length xs).
Proof.
  induction xs as [|x xs IH]; intros start; [reflexivity|].
  cbn [List.length seq combine map fst]. rewrite IH. reflexivity.
Qed.

Lemma map_snd_combine_seq {A} (xs : list A) : forall start,
  map snd (combine (seq start (List.length xs)) xs) = xs.
Proof.
  induction xs as [|x xs IH]; intros start; [reflexivity|].
  cbn [List.length seq combine map snd]. rewrite IH. reflexivity.
Qed.

Lemma fold_numbered numbered (devices : list string) : forall start acc,
  (forall k, In k (Dict.keys acc) ->
             exists j, (j < start)%nat /\ k = numbered_key numbered j) ->
  fold_left
    (fun info id =>
       Dict.set_item (numbered ++ Py.str_of_Z (Z.of_nat (fst id)))%string
                     (snd id) info)
    (combine (seq start (List.length devices)) devices) acc
  = acc ++ map (fun id => (numbered_key numbered (fst id), snd id))
               (combine (seq start (List.length devices)) devices).
Proof.
  induction devices as [|device devices IH]; intros start acc Hacc.
  - cbn. rewrite app_nil_r. reflexivity.
  - cbn [List.length seq combine fold_left map fst snd].
    change (numbered ++ Py.str_of_Z (Z.of_nat start))%string
      with (numbered_key numbered start).
    rewrite set_item_fresh.
    + rewrite IH.
      * rewrite <- app_assoc. reflexivity.
      * intros k Hk. unfold Dict.keys in Hk. rewrite map_app in Hk.
        apply in_app_or in Hk. destruct Hk as [Hk | [Hk | []]].
        -- destruct (Hacc k Hk) as (j & Hj & E). exists j. split; [lia|exact E].
        -- exists start. split; [lia | symmetry; exact Hk].
    + intros Hin. destruct (Hacc _ Hin) as (j & Hj & E).
      apply numbered_key_inj in E. lia.
Qed.

Lemma NoDup_numbered numbered n : forall start,
  NoDup (map (numbered_key numbered) (seq start n)).
Proof.
  induction n as [|n IH]; intros start; cbn [seq map]; constructor.
  - rewrite in_map_iff. intros (j & E & Hj).
    apply numbered_key_inj in E. apply in_seq in Hj. lia.
  - apply IH.
Qed.

(** X19. Of the devices found, none is lost or merged: the values of
    the fields are the devices in the order found; one device is stored
    under the single name, several under the numbered names
    [<prefix>1], [<prefix>2], ..., and no two fields share a name. *)
Theorem device_fields_keep_every_device
    (single numbered : string) (devices : list string) :
  map snd (device_fields single numbered devices) = devices
  /\ Dict.keys (device_fields single numbered devices)
     = match devices with
       | [_] => [single]
       | _ => map (numbered_key numbered) (seq 1 (List.length devices))
       end
  /\ NoDup (Dict.keys (device_fields single numbered devices)).
Proof.
  destruct devices as [|d1 [|d2 devices]].
  - repeat split. constructor.
  - repeat split. cbn. constructor; [intros [] | constructor].
  - unfold device_fields, enumerate_from_1.
    rewrite fold_numbered by (intros k []).
    cbn [app]. unfold Dict.keys. rewrite !map_map. cbn [fst snd].
    rewrite map_snd_combine_seq.
    rewrite <- (map_map fst (numbered_key numbered)), map_fst_combine_seq.
    repeat split. apply NoDup_numbered.
Qed.

End PciFacts.

Lemma pci_description_after_second_colon_witness :
  pci_description
    ("00" ++ ":" ++ "02.0 VGA compatible controller" ++ ":"
       ++ " Intel: UHD Graphics ")
  = Py.strip " Intel: UHD Graphics "
  /\ pci_description ("00" ++ ":" ++ "02.0 VGA compatible controller") = ""
  /\ pci_description "02.0 VGA compatible controller" = "".
Proof.
  apply (pci_description_after_second_colon
           "00" "02.0 VGA compatible controller" " Intel: UHD Graphics ");
    reflexivity.
Defined.

(* ================================================================= *)
(** * Theorems: the CPU readers *)

Section CpuFacts.
Local Open Scope list_scope.

Lemma cpuinfo_line_keeps info line k v :
  Dict.get k info = Some v -> Dict.get k (cpuinfo_line info line) = Some v.
Proof.
  intros G. unfold cpuinfo_line.
  destruct (Py.contains_char ":" line); [|exact G].
  destruct (Py.split_once ":" line) as [key val].
  repeat
    match goal with
    | |- Dict.get _ (if ?c && negb (Dict.contains ?n info) then _ else _) = _ =>
        destruct c; cbn [andb];
        [destruct (Dict.contains n info) eqn:?; cbn [negb];
         [|rewrite get_set_item_other;
           [exact G
           |intros ->;
            match goal with
            | C : Dict.contains _ info = false |- _ =>
                unfold Dict.contains in C; rewrite G in C; discriminate C
            end]]
        |]
    end;
    exact G.
Qed.

Lemma cpuinfo_lines_keep lines : forall info k v,
  Dict.get k info = Some v ->
  Dict.get k (fold_left cpuinfo_line lines info) = Some v.
Proof.
  induction lines as [|line lines IH]; intros info k v G; cbn [fold_left].
  - exact G.
  - apply IH, cpuinfo_line_keeps, G.
Qed.

(** X20. A field of [/proc/cpuinfo] is taken from the first line that
    names it: once the loop over the lines has set a field, no later
    line changes it, so a machine with several processors reports the
    values of its first processor block. *)
Theorem cpu_fields_first_occurrence
    (lines later : list string) (k : string) (v : value) :
  Dict.get k (fold_left cpuinfo_line lines []) = Some v ->
  Dict.get k (fold_left cpuinfo_line (lines ++ later) []) = Some v.
Proof.
  intros G. rewrite fold_left_app. apply cpuinfo_lines_keep, G.
Qed.

Lemma split_ws_fields s : Forall is_field (Text.split_ws s).
Proof.
  induction s as [|c s IH]; [constructor|].
  cbn [Text.split_ws]. destruct (Py.is_space c) eqn:Sp; [exact IH|].
  destruct s as [|c' s'].
  - constructor; [|constructor]. split; [discriminate|].
    cbn [no_space]. rewrite Sp. reflexivity.
  - destruct (Py.is_space c') eqn:Sp'.
    + constructor; [|exact IH]. split; [discriminate|].
      cbn [no_space]. rewrite Sp. reflexivity.
    + destruct (Text.split_ws (String c' s')) as [|first rest].
      * constructor; [|constructor]. split; [discriminate|].
        cbn [no_space]. rewrite Sp. reflexivity.
      * inversion IH as [|? ? [_ Hf] Hr]; subst.
        constructor; [|exact Hr]. split; [discriminate|].
        cbn [no_space]. rewrite Sp, Hf. reflexivity.
Qed.

Section CpuFiles.
Variable w : World.

(** X21. When [/proc/loadavg] can be read, [get_cpu_usage] either
    returns the first three fields of the file, each a non-empty text
    without whitespace, labelled [(1min)], [(5min)] and [(15min)], or,
    when the file holds fewer than three fields, raises [IndexError]:
    its handler names [IOError] only. *)
Theorem cpu_usage_fields (content : string) :
  open_read w "/proc/loadavg" = Some content ->
  (get_cpu_usage w = Raise (IndexError "list index out of range")
   /\ (List.length (Text.split_ws (Py.strip content)) < 3)%nat)
  \/ (exists a b c,
         get_cpu_usage w
         = Ok (Some (a ++ " (1min), " ++ b ++ " (5min), " ++ c ++ " (15min)")%string)
         /\ is_field a /\ is_field b /\ is_field c
         /\ firstn 3 (Text.split_ws (Py.strip content)) = [a; b; c]).
Proof.
  intros E. unfold get_cpu_usage. rewrite E.
  pose proof (split_ws_fields (Py.strip content)) as F.
  destruct (Text.split_ws (Py.strip content)) as [|a [|b [|c rest]]].
  - left. split; [reflexivity | cbn; lia].
  - left. split; [reflexivity | cbn; lia].
  - left. split; [reflexivity | cbn; lia].
  - right. exists a, b, c.
    inversion F as [|? ? Fa F1]; subst.
    inversion F1 as [|? ? Fb F2]; subst.
    inversion F2 as [|? ? Fc F3]; subst.
    repeat split; try assumption; try apply Fa; try apply Fb; try apply Fc.
Qed.



End CpuFiles.
End CpuFacts.

Lemma cpu_fields_first_occurrence_witness :
  Dict.get "model_name"
    (fold_left cpuinfo_line
       (["model name" ++ Text.TAB ++ ": First"; "processor" ++ Text.TAB ++ ": 1"]
          ++ ["model name" ++ Text.TAB ++ ": Second"]) [])
  = Some (VStr "First").
Proof.
  apply (cpu_fields_first_occurrence
           ["model name" ++ Text.TAB ++ ": First"; "processor" ++ Text.TAB ++ ": 1"]
           ["model name" ++ Text.TAB ++ ": Second"] "model_name" (VStr "First")).
  reflexivity.
Defined.

Lemma cpu_usage_fields_witness :
  (get_cpu_usage (with_file "/proc/loadavg" "0.52 0.48" bare_world)
   = Raise (IndexError "list index out of range")
   /\ (List.length (Text.split_ws (Py.strip "0.52 0.48")) < 3)%nat)
  \/ (exists a b c,
         get_cpu_usage (with_file "/proc/loadavg" "0.52 0.48" bare_world)
         = Ok (Some (a ++ " (1min), " ++ b ++ " (5min), " ++ c ++ " (15min)"))
         /\ is_field a /\ is_field b /\ is_field c
         /\ firstn 3 (Text.split_ws (Py.strip "0.52 0.48")) = [a; b; c]).
Proof.
  apply (cpu_usage_fields (with_file "/proc/loadavg" "0.52 0.48" bare_world)
           "0.52 0.48").
  reflexivity.
Defined.

(* ================================================================= *)
(** * Theorems: memory hardware *)

Section MemoryHardwareFacts.
Variable w : World.
Local Open Scope list_scope.

Lemma dmidecode_slots lines : forall slots speed mem_type,
  fst (fst (fold_left dmidecode_step lines (slots, speed, mem_type)))
  = slots
    + Z.of_nat (List.length (filter (Py.contains "Memory Device") lines)).
Proof.
  induction lines as [|line lines IH]; intros slots speed mem_type.
  - cbn. lia.
  - cbn [fold_left filter]. unfold dmidecode_step at 2.
    destruct (Py.contains "Memory Device" line).
    + rewrite IH. cbn [List.length]. lia.
    + destruct (Py.contains "Type:" line && negb (Py.contains "Error" line)).
      * destruct (negb (opt_truthy mem_type)); apply IH.
      * destruct (Py.contains "Speed:" line
                  && negb (Py.contains "Unknown" line)).
        -- destruct (negb (opt_truthy speed)); apply IH.
        -- apply IH.
Qed.

(** X23. When [dmidecode] answers, the [memory_slots] that
    [get_memory_hardware_info] reports is the number of lines of the
    answer that hold [Memory Device], and the field is left out when
    there is no such line. *)
Theorem memory_slots_count (stdout err : string) :
  command_exists w "dmidecode" = Ok true ->
  run_command w (CmdLine "sudo dmidecode -t memory 2>/dev/null") true
  = Ok (stdout, err, 0) ->
  Py.truthy stdout = true ->
  exists info,
    get_memory_hardware_info w = Ok info
    /\ Dict.get "memory_slots" info
       = if (memory_device_lines stdout =? 0)%nat then None
         else Some (VInt (Z.of_nat (memory_device_lines stdout))).
Proof.
  intros Hc Hr Ht. unfold get_memory_hardware_info.
  rewrite Hc. cbn [bind]. rewrite Hr. cbn [bind]. rewrite Ht.
  cbn [Z.eqb andb].
  pose proof (dmidecode_slots (Py.split_char Py.LF stdout) 0 None None) as S.
  fold (memory_device_lines stdout) in S.
  destruct (fold_left dmidecode_step (Py.split_char Py.LF stdout)
                      (0, None, None)) as [[slots speed] mem_type].
  cbn [fst] in S. eexists. split; [reflexivity|].
  assert (G : Dict.get "memory_slots"
                (if 0 <? slots
                 then Dict.set_item "memory_slots" (VInt slots) []
                 else [])
              = if (memory_device_lines stdout =? 0)%nat then None
                else Some (VInt (Z.of_nat (memory_device_lines stdout)))).
  { destruct (memory_device_lines stdout) as [|n] eqn:N.
    - replace (0 <? slots) with false by (symmetry; apply Z.ltb_ge; lia).
      reflexivity.
    - replace (0 <? slots) with true by (symmetry; apply Z.ltb_lt; lia).
      cbn [Nat.eqb]. rewrite get_set_item_same. f_equal. f_equal. lia. }
  destruct mem_type as [t|]; [destruct (Py.truthy t)|];
    (destruct speed as [s|]; [destruct (Py.truthy s)|]);
    rewrite ?get_set_item_other by discriminate; exact G.
Qed.

End MemoryHardwareFacts.

Lemma memory_slots_count_witness :
  exists info,
    get_memory_hardware_info dmidecode_world = Ok info
    /\ Dict.get "memory_slots" info = Some (VInt 2).
Proof.
  apply (memory_slots_count dmidecode_world
           ("Memory Device" ++ NL ++ Text.TAB ++ "Type: DDR4" ++ NL
            ++ Text.TAB ++ "Speed: 3200 MT/s" ++ NL ++ "Memory Device") "");
    reflexivity.
Defined.
